(** * go-crud-helper: the in-memory Store and the HTTP dispatcher

    A shallow embedding of [crud_helper.go] (and of the registration in
    [main.go]).  The Go code is stateful and uses reflection, so the
    embedding threads an explicit world (the Store, the Go heap, a log of
    Store method calls) through a small state-and-panic monad, and keeps
    the dynamic types that [reflect] checks at run time. *)

From Stdlib Require Import Ascii String.
From stdpp Require Import gmap strings list fin_maps sorting.

Set Warnings "-register-all".

Local Open Scope Z_scope.

(** ** The machine type [int]

    Go's [int] is 64 bits wide on the platforms the server is built for;
    arithmetic wraps around silently (two's complement). *)

Definition int_min : Z := - 2 ^ 63.
Definition int_max : Z := 2 ^ 63 - 1.

Definition wrap (z : Z) : Z := (z + 2 ^ 63) `mod` 2 ^ 64 - 2 ^ 63.

Definition int_add (x y : Z) : Z := wrap (x + y).

(** ** Dynamic types

    The values that travel through [interface{}] in this program are built
    from one struct type, the registered model type ([Item] in [main.go]):
    the struct itself, pointers, slices, and [interface{}] variables. *)

Inductive type :=
| TModel
| TPtr (t : type)
| TSlice (t : type)
| TIface.

#[global] Instance type_eq_dec : EqDecision type.
Proof. solve_decision. Defined.

(** Go's assignability between the types above: identical types, or any
    type to a variable of type [interface{}]. *)
Definition assignable (src dst : type) : bool :=
  bool_decide (dst = src) || bool_decide (dst = TIface).

Definition loc := positive.

(** Store methods, as they appear in the call log. *)
Inductive method := MCreate | MGet | MGetAll | MUpdate | MDelete.

(** ** Results: a normal return or a Go panic *)

Inductive result (A : Type) :=
| Ok (a : A)
| Panic (msg : string).
Arguments Ok {A} a.
Arguments Panic {A} msg.

Definition is_Panic {A} (r : result A) : bool :=
  match r with Panic _ => true | Ok _ => false end.

(** A computation over a state [S]: it returns or panics, and in both
    cases leaves a state behind (a panic keeps the mutations made before
    it, as a deferred unlock and a recovering caller observe them). *)
Definition M (S A : Type) : Type := S → result A * S.

Definition ret {S A} (a : A) : M S A := λ s, (Ok a, s).

Definition bind {S A B} (m : M S A) (k : A → M S B) : M S B :=
  λ s, match m s with
       | (Ok a, s') => k a s'
       | (Panic msg, s') => (Panic msg, s')
       end.

Definition panic {S A} (msg : string) : M S A := λ s, (Panic msg, s).
Definition gets {S A} (f : S → A) : M S A := λ s, (Ok (f s), s).
Definition modify {S} (f : S → S) : M S unit := λ s, (Ok tt, f s).

Declare Scope go_scope.
Delimit Scope go_scope with go.
Notation "x <- m ;; k" := (bind m (λ x, k))
  (at level 100, m at next level, right associativity) : go_scope.
Notation "m ;;; k" := (bind m (λ _, k))
  (at level 100, right associativity) : go_scope.

(** Run a computation on one component of a larger state. *)
Definition zoom {S T A} (get : T → S) (set : S → T → T) (m : M S A) : M T A :=
  λ t, let '(r, s') := m (get t) in (r, set s' t).

Definition b2n (b : bool) : nat := if b then 1%nat else 0%nat.

Fixpoint for_each {S A} (xs : list A) (body : A → M S unit) : M S unit :=
  match xs with
  | [] => ret tt
  | x :: xs' => (body x ;;; for_each xs' body)%go
  end.

Section Model.

(** The model struct: an [int] field [ID] and the remaining fields, whose
    shape the helper never inspects. *)
Context {Fields : Type}.

Record model := Model { ID : Z; fields : Fields }.

Definition setID (id : Z) (r : model) : model := Model id (fields r).

(** Values of the dynamic types above.  [VNil] is the nil interface; a
    slice is [None] when nil and [Some xs] otherwise; a pointer whose
    location is not allocated is a nil pointer. *)
Inductive value :=
| VNil
| VStruct (r : model)
| VPtr (t : type) (l : loc)
| VSlice (t : type) (xs : option (list value)).

Definition typeof (v : value) : option type :=
  match v with
  | VNil => None
  | VStruct _ => Some TModel
  | VPtr t _ => Some (TPtr t)
  | VSlice t _ => Some (TSlice t)
  end.

(** ** The Store ([type Store struct]) and the world around it *)

Record Store := mkStore { data : gmap Z value; nextID : Z }.

Record World := mkWorld {
  store : Store;
  heap : gmap loc value;
  calls : list method
}.

Definition set_store (f : Store → Store) (w : World) : World :=
  mkWorld (f (store w)) (heap w) (calls w).
Definition set_heap (f : gmap loc value → gmap loc value) (w : World) : World :=
  mkWorld (store w) (f (heap w)) (calls w).
Definition set_data (f : gmap Z value → gmap Z value) (s : Store) : Store :=
  mkStore (f (data s)) (nextID s).
Definition set_nextID (f : Z → Z) (s : Store) : Store :=
  mkStore (data s) (f (nextID s)).

(** Every Store method starts with [s.itemMux.Lock()] and defers the
    unlock, so the mutex is free again whenever a method has returned or
    panicked; sequentially it only marks that the method was entered. *)
Definition lock (m : method) : M World unit :=
  modify (λ w, mkWorld (store w) (heap w) (calls w ++ [m])).

(** Heap access. *)
Definition load (l : loc) : M World value :=
  λ w, match heap w !! l with
       | Some v => (Ok v, w)
       | None => (Panic "invalid memory address or nil pointer dereference", w)
       end.

Definition poke (l : loc) (v : value) : M World unit :=
  modify (set_heap (insert l v)).

Definition alloc (v : value) : M World loc :=
  λ w, let l := fresh (dom (heap w)) in (Ok l, set_heap (insert l v) w).

(** ** The fragment of package [reflect] the Store uses *)

Inductive Value :=
| Invalid                      (* the zero reflect.Value *)
| Val (v : value)              (* a value, not addressable *)
| Var (t : type) (l : loc).    (* the addressable variable of type t at l *)

(** [reflect.ValueOf]: the nil interface gives the zero Value. *)
Definition ValueOf (i : value) : Value :=
  match i with
  | VNil => Invalid
  | _ => Val i
  end.

(** [Value.Elem]: panics unless the Value is a pointer or an interface; a
    nil pointer gives the zero Value. *)
Definition Elem (v : Value) : M World Value :=
  match v with
  | Val (VPtr t l) =>
      (h <- gets heap ;;
       ret (match h !! l with Some _ => Var t l | None => Invalid end))%go
  | Var (TPtr _) l =>
      (x <- load l ;;
       match x with
       | VPtr t' l' =>
           (h <- gets heap ;;
            ret (match h !! l' with Some _ => Var t' l' | None => Invalid end))
       | _ => panic "reflect: call of reflect.Value.Elem on ill-typed variable"
       end)%go
  | Var TIface l => (x <- load l ;; ret (ValueOf x))%go
  | Invalid => panic "reflect: call of reflect.Value.Elem on zero Value"
  | Val _ | Var _ _ =>
      panic "reflect: call of reflect.Value.Elem on non-pointer Value"
  end.

(** [v.FieldByName(ID).SetInt(x)]: [v] must be a struct, and the field is
    settable only when the struct is addressable. *)
Definition FieldByName_ID_SetInt (v : Value) (x : Z) : M World unit :=
  match v with
  | Var TModel l =>
      (s <- load l ;;
       match s with
       | VStruct r => poke l (VStruct (setID x r))
       | _ => panic "reflect: ill-typed struct variable"
       end)%go
  | Val (VStruct _) =>
      panic "reflect: reflect.Value.SetInt using unaddressable value"
  | _ => panic "reflect: call of reflect.Value.FieldByName on non-struct Value"
  end.

(** The static type of a Value and the value it currently holds. *)
Definition Type_of (v : Value) : option type :=
  match v with
  | Invalid => None
  | Val x => typeof x
  | Var t _ => Some t
  end.

Definition Interface (v : Value) : M World value :=
  match v with
  | Invalid => panic "reflect: call of reflect.Value.Interface on zero Value"
  | Val x => ret x
  | Var _ l => load l
  end.

(** [dst.Set(x)]: [dst] must be addressable and [x] must be a valid Value
    whose type is assignable to the type of [dst] (the rule of a Go
    assignment statement); otherwise Set panics. *)
Definition Set_ (dst x : Value) : M World unit :=
  match dst with
  | Var t l =>
      match Type_of x with
      | Some tx =>
          if assignable tx t
          then (xv <- Interface x ;; poke l xv)%go
          else panic "reflect.Set: value is not assignable to type"
      | None => panic "reflect: call of reflect.Value.Set on zero Value"
      end
  | _ => panic "reflect: reflect.Value.Set using unaddressable value"
  end.

(** [reflect.Append(s, x)]: [s] must be a slice, and [x] must be
    assignable to its element type. *)
Definition Append (s x : Value) : M World Value :=
  match Type_of s with
  | Some (TSlice e) =>
      (sv <- Interface s ;;
       match sv with
       | VSlice _ xs =>
           match Type_of x with
           | Some tx =>
               if assignable tx e
               then (xv <- Interface x ;;
                     ret (Val (VSlice e (Some (default [] xs ++ [xv])))))
               else panic "reflect.Set: value is not assignable to type"
           | None => panic "reflect: call of reflect.Value.Set on zero Value"
           end
       | _ => panic "reflect: ill-typed slice variable"
       end)%go
  | _ => panic "reflect: call of reflect.Append on non-slice Value"
  end.

(** ** What the Go runtime and the standard library supply

    - the zero value of the fields of the model struct;
    - the order in which [for _, item := range s.data] visits the map: Go
      leaves it unspecified, but every entry is visited exactly once
      (nothing below relies on two visits of a map agreeing);
    - [encoding/json], decoding side: what decoding a request body into a
      zeroed model struct yields, [None] when the decoder reports an
      error. *)
Class Runtime := {
  zero_fields : Fields;
  range_order : gmap Z value → list (Z * value);
  range_order_perm : ∀ m, range_order m ≡ₚ map_to_list m;
  json_decode : string → option model
}.

Context `{!Runtime}.

Definition zero_model : model := Model 0 zero_fields.

(** ** The Store methods *)

Definition NewStore : Store := mkStore ∅ 1.

Definition Create (item : value) : M World value :=
  (lock MCreate ;;;
   id <- gets (λ w, nextID (store w)) ;;
   modify (set_store (set_nextID (λ n, int_add n 1))) ;;;
   itemValue <- Elem (ValueOf item) ;;
   FieldByName_ID_SetInt itemValue id ;;;
   modify (set_store (set_data (insert id item))) ;;;
   ret item)%go.

Definition Get (id : Z) (result : value) : M World bool :=
  (lock MGet ;;;
   d <- gets (λ w, data (store w)) ;;
   match d !! id with
   | None => ret false
   | Some item =>
       let itemValue := ValueOf item in
       dst <- Elem (ValueOf result) ;;
       Set_ dst itemValue ;;;
       ret true
   end)%go.

Definition GetAll (result : value) : M World unit :=
  (lock MGetAll ;;;
   itemSlice <- Elem (ValueOf result) ;;
   d <- gets (λ w, data (store w)) ;;
   for_each (range_order d) (λ '(_, item),
     s' <- Append itemSlice (ValueOf item) ;;
     Set_ itemSlice s'))%go.

Definition Update (id : Z) (updatedItem : value) : M World bool :=
  (lock MUpdate ;;;
   d <- gets (λ w, data (store w)) ;;
   match d !! id with
   | None => ret false
   | Some _ =>
       modify (set_store (set_data (insert id updatedItem))) ;;;
       ret true
   end)%go.

Definition Delete (id : Z) : M World bool :=
  (lock MDelete ;;;
   d <- gets (λ w, data (store w)) ;;
   match d !! id with
   | None => ret false
   | Some _ =>
       modify (set_store (set_data (delete id))) ;;;
       ret true
   end)%go.

(** ** The collaborators of the dispatcher: [net/http], [strconv], [encoding/json] *)

(** What a handler writes to the response body: the line that
    [http.Error] prints, or one JSON document. *)
Inductive json :=
| JNull                     (* null *)
| JObject (r : model)       (* the object that encodes the struct r *)
| JArray (xs : list json).  (* [ ... ] *)

Inductive chunk :=
| Text (s : string)
| JSON (j : json).

(** [http.ResponseWriter]: the header map the handler edits, the status
    line once written (with the headers that went out with it), and the
    body written so far. *)
Record ResponseWriter := mkResponseWriter {
  Header : gmap string string;
  wroteHeader : option (Z * gmap string string);
  body : list chunk
}.

Definition NewResponseWriter : ResponseWriter := mkResponseWriter ∅ None [].

Definition Header_Set (k v : string) (w : ResponseWriter) : ResponseWriter :=
  mkResponseWriter (<[k := v]> (Header w)) (wroteHeader w) (body w).

Definition Header_Del (k : string) (w : ResponseWriter) : ResponseWriter :=
  mkResponseWriter (delete k (Header w)) (wroteHeader w) (body w).

(** [w.WriteHeader(code)]: only the first call counts; it sends the
    header map as it is at that moment. *)
Definition WriteHeader (code : Z) (w : ResponseWriter) : ResponseWriter :=
  match wroteHeader w with
  | Some _ => w
  | None => mkResponseWriter (Header w) (Some (code, Header w)) (body w)
  end.

Definition StatusOK : Z := 200.
Definition StatusCreated : Z := 201.
Definition StatusNoContent : Z := 204.
Definition StatusBadRequest : Z := 400.
Definition StatusNotFound : Z := 404.
Definition StatusMethodNotAllowed : Z := 405.

(** [w.Write(b)]: writes the header with status 200 first when no header
    has been written yet. *)
Definition Write (c : chunk) (w : ResponseWriter) : ResponseWriter :=
  let w' := WriteHeader StatusOK w in
  mkResponseWriter (Header w') (wroteHeader w') (body w' ++ [c]).

(** [http.Error(w, msg, code)]. *)
Definition http_Error (msg : string) (code : Z) (w : ResponseWriter) : ResponseWriter :=
  Write (Text msg)
    (WriteHeader code
       (Header_Set "X-Content-Type-Options" "nosniff"
          (Header_Set "Content-Type" "text/plain; charset=utf-8"
             (Header_Del "Content-Length" w)))).

(** The status and the headers the client receives. *)
Definition status (w : ResponseWriter) : option Z := fst <$> wroteHeader w.
Definition sent_header (w : ResponseWriter) (k : string) : option string :=
  wroteHeader w ≫= λ sh, snd sh !! k.

(** [*http.Request]: the method, the parsed query string, the body. *)
Record Request := mkRequest {
  Method : string;
  Query : list (string * string);
  Body : string
}.

(** [r.URL.Query().Get(key)]: the first value of the key, or the empty
    string when the key is absent. *)
Fixpoint Query_Get (q : list (string * string)) (key : string) : string :=
  match q with
  | [] => EmptyString
  | (k, v) :: q' => if String.eqb k key then v else Query_Get q' key
  end.

(** The query string carries no parameter of that name. *)
Definition absent (key : string) (q : list (string * string)) : Prop :=
  Forall (λ p, p.1 ≠ key) q.

(** [strconv.Atoi]: an optional sign followed by one or more decimal
    digits, and the value must fit [int]; anything else is an error. *)
Definition digit (c : ascii) : option Z :=
  let n := Z.of_N (N_of_ascii c) in
  if (48 <=? n) && (n <=? 57) then Some (n - 48) else None.

Fixpoint digits (s : string) (acc : Z) : option Z :=
  match s with
  | EmptyString => Some acc
  | String c s' => d ← digit c; digits s' (acc * 10 + d)
  end.

Definition Atoi (s : string) : option Z :=
  match s with
  | EmptyString => None
  | String c rest =>
      let neg := bool_decide (c = "-"%char) in
      let ds := if neg || bool_decide (c = "+"%char) then rest else s in
      match ds with
      | EmptyString => None
      | _ =>
          n ← digits ds 0;
          let v := if neg then - n else n in
          if (int_min <=? v) && (v <=? int_max) then Some v else None
      end
  end.

(** [encoding/json], encoding side: a pointer encodes as the value it
    points to, a nil pointer, a nil interface and a nil slice encode as
    [null], any other slice as an array.  The fuel bounds the nesting the
    encoder follows before it reports a cycle. *)
Fixpoint marshal (fuel : nat) (h : gmap loc value) (v : value) : option json :=
  match fuel with
  | O => None
  | S n =>
      match v with
      | VNil => Some JNull
      | VStruct r => Some (JObject r)
      | VPtr _ l =>
          match h !! l with
          | Some x => marshal n h x
          | None => Some JNull
          end
      | VSlice _ None => Some JNull
      | VSlice _ (Some xs) => JArray <$> mapM (marshal n h) xs
      end
  end.

Definition startDetectingCyclesAfter : nat := 1000.

(** The dispatcher works on the world and the response writer. *)
Definition Conn : Type := World * ResponseWriter.

Definition in_world {A} (m : M World A) : M Conn A :=
  zoom fst (λ wd c, (wd, snd c)) m.
Definition respond (f : ResponseWriter → ResponseWriter) : M Conn unit :=
  modify (λ c, (fst c, f (snd c))).

(** [reflect.New(t).Interface()] for the two types the dispatcher
    allocates: a zeroed model struct and a nil slice of them. *)
Definition modelType : type := TModel.

Definition zero_value (t : type) : value :=
  match t with
  | TModel => VStruct zero_model
  | TSlice e => VSlice e None
  | TPtr _ | TIface => VNil
  end.

Definition New (t : type) : M World value :=
  (l <- alloc (zero_value t) ;; ret (VPtr t l))%go.

(** [json.NewDecoder(r.Body).Decode(v)]; the result tells whether
    [err == nil]. *)
Definition Decode (b : string) (v : value) : M World bool :=
  match json_decode b with
  | None => ret false
  | Some r =>
      match v with
      | VPtr TModel l => (poke l (VStruct r) ;;; ret true)%go
      | _ => ret false
      end
  end.

(** [json.NewEncoder(w).Encode(v)]; an encoding error writes nothing (the
    dispatcher ignores the error). *)
Definition Encode (v : value) : M Conn unit :=
  (h <- gets (λ c, heap (fst c)) ;;
   match marshal startDetectingCyclesAfter h v with
   | Some j => respond (Write (JSON j))
   | None => ret tt
   end)%go.

(** ** The dispatcher *)

Definition handleRequest (r : Request) : M Conn unit :=
  if String.eqb (Method r) "POST" then
    (* Create item *)
    (newItem <- in_world (New modelType) ;;
     ok <- in_world (Decode (Body r) newItem) ;;
     if negb ok then respond (http_Error "Invalid request payload" StatusBadRequest)
     else
       createdItem <- in_world (Create newItem) ;;
       respond (WriteHeader StatusCreated) ;;;
       Encode createdItem)%go
  else if String.eqb (Method r) "GET" then
    if String.eqb (Query_Get (Query r) "id") EmptyString then
      (* Get all items *)
      (result <- in_world (New (TSlice modelType)) ;;
       in_world (GetAll result) ;;;
       respond (Header_Set "Content-Type" "application/json") ;;;
       Encode result)%go
    else
      (* Get item by ID *)
      match Atoi (Query_Get (Query r) "id") with
      | None => respond (http_Error "Invalid ID" StatusBadRequest)
      | Some id =>
          (result <- in_world (New modelType) ;;
           found <- in_world (Get id result) ;;
           if found then
             respond (Header_Set "Content-Type" "application/json") ;;;
             Encode result
           else respond (http_Error "Item not found" StatusNotFound))%go
      end
  else if String.eqb (Method r) "PUT" then
    (* Update item by ID *)
    match Atoi (Query_Get (Query r) "id") with
    | None => respond (http_Error "Invalid ID" StatusBadRequest)
    | Some id =>
        (updatedItem <- in_world (New modelType) ;;
         ok <- in_world (Decode (Body r) updatedItem) ;;
         if negb ok then respond (http_Error "Invalid request payload" StatusBadRequest)
         else
           found <- in_world (Update id updatedItem) ;;
           if found then
             respond (Header_Set "Content-Type" "application/json") ;;;
             Encode updatedItem
           else respond (http_Error "Item not found" StatusNotFound))%go
    end
  else if String.eqb (Method r) "DELETE" then
    (* Delete item by ID *)
    match Atoi (Query_Get (Query r) "id") with
    | None => respond (http_Error "Invalid ID" StatusBadRequest)
    | Some id =>
        (found <- in_world (Delete id) ;;
         if found then respond (WriteHeader StatusNoContent)
         else respond (http_Error "Item not found" StatusNotFound))%go
    end
  else respond (http_Error "Unsupported method" StatusMethodNotAllowed).

(** ** Sequences of Store calls

    A client of the Store issues calls one after the other; a call that
    panics leaves the world as it was at the panic, and the next call runs
    on it (the HTTP server recovers a panicking handler and keeps
    serving).  An event records a call, what it returned, and the heap at
    that moment, through which the caller reads a returned item. *)

Inductive call :=
| CallCreate (item : value)
| CallGet (id : Z) (result : value)
| CallGetAll (result : value)
| CallUpdate (id : Z) (updatedItem : value)
| CallDelete (id : Z).

Inductive answer :=
| AItem (v : value)
| ABool (b : bool)
| AUnit.

Definition exec (c : call) : M World answer :=
  match c with
  | CallCreate item => (v <- Create item ;; ret (AItem v))%go
  | CallGet id result => (b <- Get id result ;; ret (ABool b))%go
  | CallGetAll result => (GetAll result ;;; ret AUnit)%go
  | CallUpdate id v => (b <- Update id v ;; ret (ABool b))%go
  | CallDelete id => (b <- Delete id ;; ret (ABool b))%go
  end.

Record event := mkEvent {
  ev_call : call;
  ev_result : result answer;
  ev_heap : gmap loc value
}.

Fixpoint run (cs : list call) (w : World) : list event * World :=
  match cs with
  | [] => ([], w)
  | c :: cs' =>
      let '(r, w1) := exec c w in
      let '(tr, w2) := run cs' w1 in
      (mkEvent c r (heap w1) :: tr, w2)
  end.

(** The ID field of the record a returned item points to. *)
Definition returned_ID (h : gmap loc value) (v : value) : option Z :=
  match v with
  | VPtr _ l =>
      match h !! l with
      | Some (VStruct r) => Some (ID r)
      | _ => None
      end
  | _ => None
  end.

(** The ID a Create call handed out, if the event is a Create that
    returned. *)
Definition issued (e : event) : option Z :=
  match ev_call e, ev_result e with
  | CallCreate _, Ok (AItem v) => returned_ID (ev_heap e) v
  | _, _ => None
  end.

Definition issued_ids (tr : list event) : list Z := omap issued tr.

Definition is_Create (c : call) : bool :=
  match c with CallCreate _ => true | _ => false end.

(** Create calls in a sequence of calls, whether they return or panic. *)
Definition Create_calls (cs : list call) : nat := length (filter is_Create cs).

(** Creates that returned, and Deletes that returned true. *)
Definition successful_Create (e : event) : bool :=
  match ev_call e, ev_result e with
  | CallCreate _, Ok _ => true
  | _, _ => false
  end.

Definition successful_Delete (e : event) : bool :=
  match ev_call e, ev_result e with
  | CallDelete _, Ok (ABool true) => true
  | _, _ => false
  end.

Definition successful_Creates (tr : list event) : nat :=
  length (filter successful_Create tr).
Definition successful_Deletes (tr : list event) : nat :=
  length (filter successful_Delete tr).

(** What an event wrote, and under which ID: a Create that returned wrote
    the item under the ID it handed out, an Update that returned true
    wrote its argument under the ID it was given. *)
Definition written (e : event) : option (Z * value) :=
  match ev_call e, ev_result e with
  | CallCreate _, Ok (AItem v) => id ← returned_ID (ev_heap e) v; Some (id, v)
  | CallUpdate id v, Ok (ABool true) => Some (id, v)
  | _, _ => None
  end.

(** The value last written for an ID in a trace (the latest event
    decides). *)
Fixpoint last_written (tr : list event) (id : Z) : option value :=
  match tr with
  | [] => None
  | e :: tr' =>
      match last_written tr' id with
      | Some v => Some v
      | None =>
          match written e with
          | Some (i, v) => if decide (i = id) then Some v else None
          | None => None
          end
      end
  end.

(** [keeps f m]: running [m] leaves the component [f] of the world as it
    was. *)
Definition keeps {X A} (f : World → X) (m : M World A) : Prop :=
  ∀ w, f (snd (m w)) = f w.

(** Every stored ID is below the counter. *)
Definition ids_below_nextID (w : World) : Prop :=
  ∀ id, is_Some (data (store w) !! id) → id < nextID (store w).

(** A value that can be assigned to a variable of type [e]. *)
Definition fits (e : type) (v : value) : Prop :=
  ∃ t, typeof v = Some t ∧ assignable t e = true.

(** The world after [reflect.New] has allocated [x]. *)
Definition allocated (x : value) (w : World) : World :=
  mkWorld (store w) (<[fresh (dom (heap w)) := x]> (heap w)) (calls w).

(** The items of a slice value. *)
Definition slice_items (v : value) : list value :=
  match v with
  | VSlice _ (Some xs) => xs
  | _ => []
  end.

(** ** [main.go]: the handler registered for [/item]

    [main] creates one Store and registers a closure that passes it, with
    the model type, to [handleRequest].  [serve] applies that closure to
    the requests of one client in order: every request gets a response
    writer of its own, and when the handler panics the HTTP server
    recovers and the next request is served on the same Store. *)

Definition response : Type := result unit * ResponseWriter.

Definition serve_one (req : Request) (w : World) : response * World :=
  let '(res, (w', rw)) := handleRequest req (w, NewResponseWriter) in
  ((res, rw), w').

Fixpoint serve (reqs : list Request) (w : World) : list response * World :=
  match reqs with
  | [] => ([], w)
  | req :: reqs' =>
      let '(resp, w1) := serve_one req w in
      let '(resps, w2) := serve reqs' w1 in
      (resp :: resps, w2)
  end.

(** The id a client reads in a 201 response. *)
Definition created_id (resp : response) : option Z :=
  match status (snd resp), body (snd resp) with
  | Some 201, [JSON (JObject r)] => Some (ID r)
  | _, _ => None
  end.

(** A POST whose body decodes. *)
Definition creates (req : Request) : bool :=
  String.eqb (Method req) "POST" &&
  match json_decode (Body req) with Some _ => true | None => false end.

End Model.

(** ** The registration in [main.go]

    [Item] is the model struct [ID int; Title string; Done bool]. *)

Record ItemFields := mkItemFields { Title : string; Done : bool }.

Definition Item : Type := @model ItemFields.

Definition mkItem (id : Z) (title : string) (done : bool) : Item :=
  Model id (mkItemFields title done).

(** A table-driven stand-in for the JSON decoder, and the map order that
    lists the entries by key: one concrete runtime, used to run the model
    on examples. *)
Definition decode_table (tbl : list (string * Item)) (b : string) : option Item :=
  (λ ip, snd (snd ip)) <$> list_find (λ p, String.eqb (fst p) b = true) tbl.

Definition example_bodies : list (string * Item) :=
  [ ("{title:Learn Go,done:false}", mkItem 0 "Learn Go" false);
    ("{id:42,title:Learn Go,done:true}", mkItem 42 "Learn Go" true) ].

#[local] Instance example_runtime : @Runtime ItemFields := {|
  zero_fields := mkItemFields EmptyString false;
  range_order := map_to_list;
  range_order_perm := λ m, reflexivity _;
  json_decode := decode_table example_bodies
|}.

(** The world at process start: a new Store, whatever the heap holds, and
    no Store method entered yet. *)
Definition W0 {Fields} (h : gmap loc (@value Fields)) : @World Fields :=
  mkWorld NewStore h [].

(** An example heap of a client of the Store: two records about to be
    created, a struct variable ([var it Item]), an [interface{}] variable,
    a slice of structs ([var items []Item]) and a slice of
    [interface{}]. *)
Definition example_heap : gmap loc (@value ItemFields) :=
  {[ 1%positive := VStruct (mkItem 0 "Learn Go" false);
     2%positive := VStruct (mkItem 7 "Write tests" true);
     3%positive := VStruct (mkItem 0 EmptyString false);
     4%positive := VNil;
     5%positive := VSlice TModel None;
     6%positive := VSlice TIface None ]}.

Definition example_calls : list (@call ItemFields) :=
  [ CallCreate (VPtr TModel 1%positive);
    CallDelete 1;
    CallCreate VNil;
    CallCreate (VPtr TModel 2%positive);
    CallUpdate 3 (VStruct (mkItem 9 "Ship it" true));
    CallGet 3 (VPtr TModel 3%positive);
    CallGetAll (VPtr (TSlice TIface) 6%positive) ].

(** Calls before and after a Delete of ID 1. *)
Definition example_calls_before : list (@call ItemFields) :=
  [ CallCreate (VPtr TModel 1%positive) ].
Definition example_calls_after : list (@call ItemFields) :=
  [ CallCreate (VPtr TModel 2%positive);
    CallUpdate 1 (VPtr TModel 2%positive) ].

(** The world after one Create on the example heap. *)
Definition example_world : @World ItemFields :=
  snd (Create (VPtr TModel 1%positive) (W0 example_heap)).

Definition example_POST : Request :=
  mkRequest "POST" [] "{id:42,title:Learn Go,done:true}".
Definition example_GET_all : Request :=
  mkRequest "GET" [] EmptyString.
Definition example_GET_1 : Request :=
  mkRequest "GET" [("id", "1")] EmptyString.
Definition example_PUT_no_id : Request :=
  mkRequest "PUT" [("page", "2")] "{title:Learn Go,done:false}".
Definition example_DELETE_5 : Request :=
  mkRequest "DELETE" [("id", "5")] EmptyString.
Definition example_DELETE_1 : Request :=
  mkRequest "DELETE" [("id", "1")] EmptyString.
Definition example_PUT_1 : Request :=
  mkRequest "PUT" [("id", "1")] "{id:42,title:Learn Go,done:true}".
Definition example_PUT_9_bad_body : Request :=
  mkRequest "PUT" [("id", "9")] "not json".
Definition example_GET_empty_id : Request :=
  mkRequest "GET" [("id", EmptyString); ("id", "1")] EmptyString.
Definition example_DELETE_bad_id : Request :=
  mkRequest "DELETE" [("id", "1x")] EmptyString.
Definition example_PATCH : Request :=
  mkRequest "PATCH" [("id", "1")] EmptyString.
Definition example_POST_bad_body : Request :=
  mkRequest "POST" [] "not json".

(** Requests of one client, in order. *)
Definition example_requests : list Request :=
  [ example_POST; example_GET_1; example_POST_bad_body; example_POST;
    example_DELETE_1; example_PATCH; example_POST ].

(** A world whose counter has reached the largest [int]. *)
Definition example_world_at_int_max : @World ItemFields :=
  mkWorld (mkStore ∅ int_max) example_heap [].


(** * Properties *)

Section Properties.

Context {Fields : Type} `{!@Runtime Fields}.

Implicit Types (w : @World Fields) (v item result : @value Fields).
Implicit Types (r : @model Fields) (h : gmap loc (@value Fields)).
Implicit Types (id : Z) (l : loc) (t : type).
Implicit Types (req : Request) (rw : @ResponseWriter Fields) (d : @model Fields).

(** ** Machine integers *)

Lemma wrap_in_range z : int_min ≤ z ≤ int_max → wrap z = z.
Proof.
  unfold wrap, int_min, int_max. intros Hz.
  rewrite Z.mod_small; lia.
Qed.

Lemma int_add_no_overflow n : int_min ≤ n < int_max → int_add n 1 = n + 1.
Proof. intros Hn. unfold int_add. apply wrap_in_range. lia. Qed.

(** ** The Store methods, one equation per outcome *)

(** Unfold the monadic plumbing and the reflection layer, then reduce the
    projections of the states that appear. *)
Ltac go :=
  cbv [bind gets modify ret panic load poke lock zoom
       Create Get Update Delete exec
       ValueOf Elem FieldByName_ID_SetInt Set_ Append Type_of Interface typeof
       set_store set_heap set_data set_nextID];
  cbn [heap store calls data nextID fst snd].

(** The same, also rewriting with the lookups and the assignability
    facts at hand until nothing moves. *)
Ltac gos :=
  repeat (progress
    (go;
     repeat match goal with
       | H : ?m !! ?k = _ |- context [?m !! ?k] => rewrite H
       | H : assignable ?a ?b = _ |- context [assignable ?a ?b] => rewrite H
       end)).

Lemma Create_returns w l r :
  heap w !! l = Some (VStruct r) →
  Create (VPtr TModel l) w =
    (Ok (VPtr TModel l),
     mkWorld
       (mkStore (<[nextID (store w) := VPtr TModel l]> (data (store w)))
                (int_add (nextID (store w)) 1))
       (<[l := VStruct (setID (nextID (store w)) r)]> (heap w))
       (calls w ++ [MCreate])).
Proof. intros Hl. gos. reflexivity. Qed.

(** Whatever the argument, Create bumps [nextID]; it either returns its
    argument, a pointer to a model struct whose ID it has set, or panics
    without touching the map and the heap. *)
Lemma Create_cases item w res w' :
  Create item w = (res, w') →
  nextID (store w') = int_add (nextID (store w)) 1 ∧
  ((∃ l r, item = VPtr TModel l ∧ heap w !! l = Some (VStruct r) ∧
           res = Ok item ∧
           data (store w') = <[nextID (store w) := item]> (data (store w)) ∧
           heap w' = <[l := VStruct (setID (nextID (store w)) r)]> (heap w)) ∨
   (is_Panic res = true ∧ data (store w') = data (store w) ∧ heap w' = heap w)).
Proof.
  destruct item as [ | r0 | t l | t xs ].
  1, 2, 4: (go; intros [= <- <-]; cbn; auto).
  destruct (heap w !! l) as [ x | ] eqn:Hl.
  - destruct t, x as [ | r | ? ? | ? ? ];
      try (gos; intros [= <- <-]; cbn; auto; fail).
    rewrite (Create_returns _ _ _ Hl). intros [= <- <-]. cbn. split; [done|].
    left. eauto 10.
  - gos. intros [= <- <-]; cbn; auto.
Qed.

Lemma Get_absent id result w :
  data (store w) !! id = None →
  Get id result w =
    (Ok false, mkWorld (store w) (heap w) (calls w ++ [MGet])).
Proof. intros Hid. gos. reflexivity. Qed.

(** Get on a stored ID: the destination must be a pointer to an allocated
    variable whose type the stored item is assignable to. *)
Lemma Get_returns id item ti td ld w :
  data (store w) !! id = Some item →
  typeof item = Some ti →
  is_Some (heap w !! ld) →
  assignable ti td = true →
  Get id (VPtr td ld) w =
    (Ok true, mkWorld (store w) (<[ld := item]> (heap w)) (calls w ++ [MGet])).
Proof.
  intros Hid Hti [x Hld] Hasg. gos.
  destruct item; simplify_eq/=; gos; reflexivity.
Qed.

(** The destination of the handler, a pointer to a model struct, cannot
    receive an item stored as a pointer. *)
Lemma Get_type_mismatch id item ti td ld w :
  data (store w) !! id = Some item →
  typeof item = Some ti →
  is_Some (heap w !! ld) →
  assignable ti td = false →
  Get id (VPtr td ld) w =
    (Panic "reflect.Set: value is not assignable to type",
     mkWorld (store w) (heap w) (calls w ++ [MGet])).
Proof.
  intros Hid Hti [x Hld] Hasg. gos.
  destruct item; simplify_eq/=; gos; reflexivity.
Qed.

Lemma Get_store id result w : store (snd (Get id result w)) = store w.
Proof.
  go. repeat (case_match; simplify_eq/=; try reflexivity).
Qed.

Lemma Update_present id v w :
  is_Some (data (store w) !! id) →
  Update id v w =
    (Ok true,
     mkWorld (mkStore (<[id := v]> (data (store w))) (nextID (store w)))
             (heap w) (calls w ++ [MUpdate])).
Proof. intros [x Hid]. gos. reflexivity. Qed.

Lemma Update_absent id v w :
  data (store w) !! id = None →
  Update id v w = (Ok false, mkWorld (store w) (heap w) (calls w ++ [MUpdate])).
Proof. intros Hid. gos. by destruct w as [[??]??]. Qed.

Lemma Delete_present id w :
  is_Some (data (store w) !! id) →
  Delete id w =
    (Ok true,
     mkWorld (mkStore (delete id (data (store w))) (nextID (store w)))
             (heap w) (calls w ++ [MDelete])).
Proof. intros [x Hid]. gos. reflexivity. Qed.

Lemma Delete_absent id w :
  data (store w) !! id = None →
  Delete id w = (Ok false, mkWorld (store w) (heap w) (calls w ++ [MDelete])).
Proof. intros Hid. gos. by destruct w as [[??]??]. Qed.

(** ** Computations that only touch the heap

    [keeps f m]: running [m] does not change the component [f] of the
    world, whether [m] returns or panics.  The reflection layer only
    writes to the heap, so it keeps the Store and the call log. *)

Lemma keeps_ret {X A} (f : @World Fields → X) (a : A) : keeps f (ret a).
Proof. by intros w. Qed.

Lemma keeps_panic {X A} (f : @World Fields → X) msg : keeps f (@panic _ A msg).
Proof. by intros w. Qed.

Lemma keeps_gets {X A} (f : @World Fields → X) (g : @World Fields → A) : keeps f (gets g).
Proof. by intros w. Qed.

Lemma keeps_bind {X A B} (f : @World Fields → X) (m : M (@World Fields) A) (k : A → M World B) :
  keeps f m → (∀ a, keeps f (k a)) → keeps f (bind m k).
Proof.
  intros Hm Hk w. unfold bind. specialize (Hm w).
  destruct (m w) as [[a|msg] w1]; cbn in *; [|done].
  by rewrite Hk.
Qed.

Lemma keeps_load {X} (f : @World Fields → X) l : keeps f (load l).
Proof. intros w. unfold load. by destruct (heap w !! l). Qed.

Lemma keeps_for_each {X A} (f : @World Fields → X) (xs : list A) (body : A → M World unit) :
  (∀ x, keeps f (body x)) → keeps f (for_each xs body).
Proof.
  intros Hbody. induction xs as [|x xs IH]; cbn.
  - apply keeps_ret.
  - apply keeps_bind; auto.
Qed.

Lemma keeps_store_poke l v : keeps (@store Fields) (poke l v).
Proof. by intros w. Qed.

Lemma keeps_calls_poke l v : keeps (@calls Fields) (poke l v).
Proof. by intros w. Qed.

Lemma keeps_store_lock m : keeps (@store Fields) (lock m).
Proof. by intros w. Qed.

Create HintDb keeps.
#[local] Hint Resolve keeps_ret keeps_panic keeps_gets keeps_load
  keeps_store_poke keeps_calls_poke keeps_store_lock : keeps.

Ltac keeps :=
  repeat first
    [ solve [auto with keeps]
    | apply keeps_bind; [|intros ?]
    | apply keeps_for_each; intros [? ?]
    | progress case_match ].

Section heap_only.
Context {X : Type} (f : @World Fields → X).
Hypothesis keeps_poke : ∀ l v, keeps f (poke l v).

Lemma keeps_Elem (x : @Value Fields) : keeps f (Elem x).
Proof. unfold Elem. keeps. Qed.

Lemma keeps_Interface (x : @Value Fields) : keeps f (Interface x).
Proof. unfold Interface. keeps. Qed.

Lemma keeps_Set (dst x : @Value Fields) : keeps f (Set_ dst x).
Proof. pose proof keeps_Interface. unfold Set_. keeps. Qed.

Lemma keeps_Append (s x : @Value Fields) : keeps f (Append s x).
Proof. pose proof keeps_Interface. unfold Append. keeps. Qed.

Lemma keeps_GetAll_loop (dst : @Value Fields) (items : list (Z * value)) :
  keeps f (for_each items (λ '(_, item),
    s' <- Append dst (ValueOf item) ;; Set_ dst s')%go).
Proof. pose proof keeps_Set. pose proof keeps_Append. keeps. Qed.
End heap_only.

Lemma keeps_store_Get id result : keeps store (Get id result).
Proof. intros w. apply Get_store. Qed.

Lemma keeps_store_GetAll result : keeps store (GetAll result).
Proof.
  pose proof (keeps_Elem (@store Fields)).
  pose proof (keeps_GetAll_loop store keeps_store_poke).
  unfold GetAll. keeps.
Qed.

(** GetAll enters the Store once, whatever happens next. *)
Lemma GetAll_calls result w :
  calls (snd (GetAll result w)) = calls w ++ [MGetAll].
Proof.
  unfold GetAll, bind at 1, lock, modify.
  pose (w0 := mkWorld (store w) (heap w) (calls w ++ [MGetAll])).
  change (calls w ++ [MGetAll]) with (calls w0) at 2. fold w0.
  generalize w0. clear w0.
  change (keeps calls (itemSlice <- Elem (ValueOf result) ;;
                       d <- gets (λ w, data (store w)) ;;
                       for_each (range_order d) (λ '(_, item),
                         s' <- Append itemSlice (ValueOf item) ;;
                         Set_ itemSlice s'))%go).
  pose proof (keeps_Elem (@calls Fields)).
  pose proof (keeps_GetAll_loop calls keeps_calls_poke).
  keeps.
Qed.

(** ** One call of a sequence *)

Lemma bind_ret_eq {S A B} (m : M S A) (f : A → B) s :
  bind m (λ a, ret (f a)) s =
    (match fst (m s) with Ok a => Ok (f a) | Panic msg => Panic msg end,
     snd (m s)).
Proof. unfold bind, ret. by destruct (m s) as [[?|?] ?]. Qed.

Lemma returned_ID_created l r id h :
  returned_ID (<[l := VStruct (setID id r)]> h) (VPtr TModel l) = Some id.
Proof. unfold returned_ID. by rewrite lookup_insert_eq. Qed.

(** What a call does to the Store, by kind of call. *)
Lemma exec_store c w res w' :
  exec c w = (res, w') →
  match c with
  | CallCreate item =>
      nextID (store w') = int_add (nextID (store w)) 1 ∧
      ((res = Ok (AItem item) ∧
        returned_ID (heap w') item = Some (nextID (store w)) ∧
        data (store w') = <[nextID (store w) := item]> (data (store w))) ∨
       (is_Panic res = true ∧ data (store w') = data (store w)))
  | CallUpdate id v =>
      nextID (store w') = nextID (store w) ∧
      ((res = Ok (ABool true) ∧ is_Some (data (store w) !! id) ∧
        data (store w') = <[id := v]> (data (store w))) ∨
       (res = Ok (ABool false) ∧ data (store w') = data (store w)))
  | CallDelete id =>
      nextID (store w') = nextID (store w) ∧
      ((res = Ok (ABool true) ∧ is_Some (data (store w) !! id) ∧
        data (store w') = delete id (data (store w))) ∨
       (res = Ok (ABool false) ∧ data (store w') = data (store w)))
  | CallGet _ _ | CallGetAll _ => store w' = store w
  end.
Proof.
  destruct c as [item | id result | result | id v | id]; cbn [exec].
  - rewrite bind_ret_eq. destruct (Create item w) as [cres w1] eqn:HC.
    cbn. intros [= <- <-].
    apply Create_cases in HC as (Hn & [(l & r & -> & Hl & -> & Hd & Hh) | (HP & Hd & Hh)]).
    + split; [done|]. left. rewrite Hh, returned_ID_created. done.
    + split; [done|]. right. split; [|done]. by destruct cres.
  - rewrite bind_ret_eq. intros [= <- <-]. apply keeps_store_Get.
  - unfold bind. pose proof (keeps_store_GetAll result w) as HG.
    destruct (GetAll result w) as [[?|?] ?]; cbn; intros [= <- <-]; done.
  - rewrite bind_ret_eq.
    destruct (data (store w) !! id) as [x|] eqn:Hid.
    + rewrite Update_present by eauto. cbn. intros [= <- <-]. cbn. eauto 10.
    + rewrite Update_absent by done. cbn. intros [= <- <-]. cbn. eauto 10.
  - rewrite bind_ret_eq.
    destruct (data (store w) !! id) as [x|] eqn:Hid.
    + rewrite Delete_present by eauto. cbn. intros [= <- <-]. cbn. eauto 10.
    + rewrite Delete_absent by done. cbn. intros [= <- <-]. cbn. eauto 10.
Qed.

Lemma run_cons c cs w :
  run (c :: cs) w =
    (mkEvent c (fst (exec c w)) (heap (snd (exec c w)))
       :: fst (run cs (snd (exec c w))),
     snd (run cs (snd (exec c w)))).
Proof.
  cbn [run]. destruct (exec c w) as [res w1]. cbn.
  by destruct (run cs w1).
Qed.

(** ** The ID counter along a sequence of calls

    As long as the counter does not reach the largest [int], the IDs
    handed out from a world whose counter is [n] are consecutive integers
    from [n] on, possibly with gaps left by Creates that panicked. *)
Lemma run_issued cs : ∀ w,
  int_min ≤ nextID (store w) →
  nextID (store w) + Z.of_nat (Create_calls cs) ≤ int_max →
  nextID (store (snd (run cs w))) = nextID (store w) + Z.of_nat (Create_calls cs) ∧
  StronglySorted Z.lt (issued_ids (fst (run cs w))) ∧
  Forall (λ i, nextID (store w) ≤ i < nextID (store (snd (run cs w))))
         (issued_ids (fst (run cs w))).
Proof.
  induction cs as [|c cs IH]; intros w Hlo Hhi.
  - cbn. split; [unfold Create_calls; cbn; lia|]. split; constructor.
  - rewrite run_cons. cbn [fst snd].
    destruct (exec c w) as [res w1] eqn:Hex. cbn [fst snd].
    pose proof (exec_store _ _ _ _ Hex) as Hst.
    assert (Create_calls (c :: cs) =
              ((if is_Create c then 1 else 0) + Create_calls cs)%nat) as HCC.
    { unfold Create_calls. rewrite filter_cons.
      by destruct c. }
    rewrite HCC in Hhi |- *.
    assert (nextID (store w1) =
              nextID (store w) + (if is_Create c then 1 else 0) ∧
            ∀ i, issued (mkEvent c res (heap w1)) = Some i →
                 i = nextID (store w) ∧ is_Create c = true) as [Hn Hiss].
    { destruct c as [item | ? ? | ? | ? ? | ?]; cbn in Hst, Hhi |- *;
        unfold issued; cbn [ev_call ev_result].
      - destruct Hst as [Hn Hcase]. rewrite Hn, int_add_no_overflow by lia.
        split; [done|]. intros i.
        destruct Hcase as [(-> & Hret & _) | (HP & _)].
        + cbn. rewrite Hret. by intros [= <-].
        + by destruct res as [[]|].
      - rewrite Hst. split; [lia|done].
      - rewrite Hst. split; [lia|done].
      - destruct Hst as [-> _]. split; [lia|done].
      - destruct Hst as [-> _]. split; [lia|done]. }
    destruct (IH w1) as (IHn & IHs & IHf).
    { destruct (is_Create c); lia. }
    { destruct (is_Create c); lia. }
    split; [destruct (is_Create c); lia|].
    unfold issued_ids in *. cbn [omap list_omap].
    destruct (issued (mkEvent c res (heap w1))) as [i|] eqn:Hi.
    + destruct (Hiss i eq_refl) as [-> HisC]. rewrite HisC in *.
      split.
      * constructor; [done|]. eapply Forall_impl; [exact IHf|].
        cbn. intros; lia.
      * constructor; [lia|]. eapply Forall_impl; [exact IHf|].
        cbn. intros; lia.
    + split; [done|]. eapply Forall_impl; [exact IHf|].
      cbn. intros; destruct (is_Create c); lia.
Qed.

Lemma StronglySorted_lt_NoDup (ids : list Z) :
  StronglySorted Z.lt ids → NoDup ids.
Proof.
  induction 1 as [|i ids Hs IH Hall]; constructor; [|done].
  intros Hin. rewrite Forall_forall in Hall. specialize (Hall _ Hin). lia.
Qed.

(** ** C1: the IDs that Create hands out *)

(** C1. For every sequence of Store calls issued on a new Store (Creates,
    Gets, GetAlls, Updates and Deletes in any order and with any
    arguments, returning or panicking), the IDs returned by Create are
    strictly increasing and never repeated: [nextID] starts at 1, every
    Create increments it, and it stays above every ID handed out.  The
    counter is an [int]: the statement is for sequences with fewer Create
    calls than the largest [int], so that the increment does not wrap. *)
Theorem Create_IDs_strictly_increasing (h0 : gmap loc value) (cs : list call) :
  Z.of_nat (Create_calls cs) < int_max →
  nextID (@NewStore Fields) = 1 ∧
  (∀ item w, nextID (store (snd (Create item w))) = int_add (nextID (store w)) 1) ∧
  nextID (store (snd (run cs (W0 h0)))) = 1 + Z.of_nat (Create_calls cs) ∧
  StronglySorted Z.lt (issued_ids (fst (run cs (W0 h0)))) ∧
  NoDup (issued_ids (fst (run cs (W0 h0)))) ∧
  Forall (λ i, 1 ≤ i < nextID (store (snd (run cs (W0 h0)))))
         (issued_ids (fst (run cs (W0 h0)))).
Proof.
  intros Hbound. split; [done|]. split.
  { intros item w. destruct (Create item w) as [res w'] eqn:HC.
    by apply Create_cases in HC as [Hn _]. }
  destruct (run_issued cs (W0 h0)) as (Hn & Hs & Hf).
  { cbn. unfold int_min. lia. }
  { cbn. lia. }
  cbn [W0 store nextID NewStore] in Hn, Hf.
  split; [done|]. split; [done|]. split; [by apply StronglySorted_lt_NoDup|].
  done.
Qed.

(** ** C2: Create, then Get *)

(** Get hands the stored item over with [reflect.Value.Set].  When the
    destination is a pointer to a variable that can hold the stored
    pointer (a [*Item] variable or an [interface{}] variable), Get after
    Create returns true and the variable receives the created item, whose
    record is the one given to Create with the assigned ID. *)
Lemma Create_then_Get_into_pointer_variable
    (w : World) (l ld : loc) (td : type) (r : model) :
  heap w !! l = Some (VStruct r) →
  is_Some (heap w !! ld) →
  ld ≠ l →
  assignable (TPtr TModel) td = true →
  ∃ w1 w2,
    Create (VPtr TModel l) w = (Ok (VPtr TModel l), w1) ∧
    returned_ID (heap w1) (VPtr TModel l) = Some (nextID (store w)) ∧
    Get (nextID (store w)) (VPtr td ld) w1 = (Ok true, w2) ∧
    heap w2 !! ld = Some (VPtr TModel l) ∧
    heap w2 !! l = Some (VStruct (Model (nextID (store w)) (fields r))).
Proof.
  intros Hl Hld Hne Hasg. eexists _, _.
  split; [by apply Create_returns|].
  split; [cbn [heap]; apply returned_ID_created|].
  split.
  { apply (Get_returns _ (VPtr TModel l) (TPtr TModel)); cbn [store data heap].
    - by rewrite lookup_insert_eq.
    - done.
    - by rewrite lookup_insert_ne.
    - done. }
  cbn [heap]. split.
  - by rewrite lookup_insert_eq.
  - rewrite lookup_insert_ne by done. by rewrite lookup_insert_eq.
Qed.

(** C2. Create takes the record through a pointer, sets its ID, stores the
    pointer and returns it.  A Get of the assigned ID that is to populate a
    result struct, as its comment says and as the dispatcher calls it,
    finds the entry and then panics: [reflect.Value.Set] does not
    assign the stored pointer to a struct variable.  Get does not return
    true and delivers no record. *)
Theorem Create_then_Get_into_struct_panics
    (w : World) (l ld : loc) (r : model) :
  heap w !! l = Some (VStruct r) →
  is_Some (heap w !! ld) →
  ∃ w1 msg w2,
    Create (VPtr TModel l) w = (Ok (VPtr TModel l), w1) ∧
    returned_ID (heap w1) (VPtr TModel l) = Some (nextID (store w)) ∧
    data (store w1) !! nextID (store w) = Some (VPtr TModel l) ∧
    Get (nextID (store w)) (VPtr TModel ld) w1 = (Panic msg, w2) ∧
    store w2 = store w1 ∧ heap w2 = heap w1.
Proof.
  intros Hl Hld. eexists _, _, _.
  split; [by apply Create_returns|].
  split; [cbn [heap]; apply returned_ID_created|].
  cbn [store data]. split; [by rewrite lookup_insert_eq|].
  split.
  { rewrite (Get_type_mismatch _ (VPtr TModel l) (TPtr TModel) TModel ld);
        cbn [store data heap];
        [ reflexivity
        | by rewrite lookup_insert_eq
        | done
        | destruct Hld as [x Hx]; rewrite lookup_insert; case_decide; eauto
        | done ]. }
  split; reflexivity.
Qed.

(** ** C3: Update replaces the stored value *)

(** For every ID present in the Store and every value [r2], Update returns
    true and replaces the stored value by [r2] as it is: nothing else in
    the Store and nothing on the heap changes (no field is merged, the ID
    field of [r2] is neither read nor rewritten).  A Get of the ID into a
    variable that [r2] is assignable to then returns true and delivers
    exactly [r2], whatever ID field it carries. *)
Lemma Update_replaces_wholesale
    (w : World) (id : Z) (r2 : value) (t2 td : type) (ld : loc) :
  is_Some (data (store w) !! id) →
  typeof r2 = Some t2 →
  is_Some (heap w !! ld) →
  assignable t2 td = true →
  ∃ w1 w2,
    Update id r2 w = (Ok true, w1) ∧
    data (store w1) = <[id := r2]> (data (store w)) ∧
    nextID (store w1) = nextID (store w) ∧
    heap w1 = heap w ∧
    Get id (VPtr td ld) w1 = (Ok true, w2) ∧
    store w2 = store w1 ∧
    heap w2 !! ld = Some r2 ∧
    (∀ l, l ≠ ld → heap w2 !! l = heap w !! l).
Proof.
  intros Hid Ht2 Hld Hasg. eexists _, _.
  split; [by apply Update_present|]. cbn [store data nextID heap].
  do 3 (split; [done|]).
  split.
  { apply (Get_returns _ r2 t2); cbn [store data heap]; try done.
    by rewrite lookup_insert_eq. }
  cbn [store heap]. split; [done|]. split.
  - by rewrite lookup_insert_eq.
  - intros l Hne. by rewrite lookup_insert_ne.
Qed.

(** C3. Update on a present ID returns true and stores its argument as it
    is.  When the argument is a pointer to a model struct, which is what
    the dispatcher passes, the Get of that ID that is to populate a result
    struct finds the entry and panics instead of returning the record. *)
Theorem Update_then_Get_into_struct_panics
    (w : World) (id : Z) (l ld : loc) :
  is_Some (data (store w) !! id) →
  is_Some (heap w !! ld) →
  ∃ w1 msg w2,
    Update id (VPtr TModel l) w = (Ok true, w1) ∧
    data (store w1) = <[id := VPtr TModel l]> (data (store w)) ∧
    nextID (store w1) = nextID (store w) ∧
    heap w1 = heap w ∧
    Get id (VPtr TModel ld) w1 = (Panic msg, w2) ∧
    store w2 = store w1 ∧ heap w2 = heap w1.
Proof.
  intros Hid Hld. eexists _, _, _.
  split; [by apply Update_present|]. cbn [store data nextID heap].
  do 3 (split; [done|]).
  split.
  { rewrite (Get_type_mismatch _ (VPtr TModel l) (TPtr TModel) TModel ld);
        cbn [store data heap];
        [ reflexivity | by rewrite lookup_insert_eq | done | done | done ]. }
  split; reflexivity.
Qed.

(** ** C4: Delete *)

(** C4. Delete returns true exactly when the ID was present before the
    call.  After a Delete that returned true, the ID is gone: a Get of it
    returns false, whatever the destination, and writes nothing; a second
    Delete of it returns false and leaves the Store as it is. *)
Theorem Delete_then_not_found
    (w : World) (id : Z) (res : result bool) (w1 : World) :
  Delete id w = (res, w1) →
  res = Ok (bool_decide (is_Some (data (store w) !! id))) ∧
  (res = Ok true →
   data (store w1) !! id = None ∧
   (∀ result, ∃ w2,
      Get id result w1 = (Ok false, w2) ∧
      store w2 = store w1 ∧ heap w2 = heap w1) ∧
   (∃ w3, Delete id w1 = (Ok false, w3) ∧ store w3 = store w1)).
Proof.
  intros HD. destruct (data (store w) !! id) as [x|] eqn:Hid.
  - rewrite Delete_present in HD by eauto. injection HD as <- <-.
    split; [by rewrite bool_decide_eq_true_2|]. intros _.
    assert (data (store
              (mkWorld (mkStore (delete id (data (store w))) (nextID (store w)))
                 (heap w) (calls w ++ [MDelete]))) !! id = None) as Hgone.
    { cbn. apply lookup_delete_eq. }
    split; [done|]. split.
    + intros result. eexists. split; [by apply Get_absent|]. done.
    + eexists. split; [by apply Delete_absent|]. done.
  - rewrite Delete_absent in HD by done. injection HD as <- <-.
    split; [|done]. rewrite bool_decide_eq_false_2; [done|].
    by intros [? ?].
Qed.

(** ** The map along a sequence of calls *)


(** One call: how the size of the map moves, what the event wrote, and
    where the entries of the map come from. *)
Lemma exec_summary c w res w' :
  exec c w = (res, w') →
  ids_below_nextID w →
  int_min ≤ nextID (store w) →
  nextID (store w) + Z.of_nat (b2n (is_Create c)) ≤ int_max →
  let e := mkEvent c res (heap w') in
  (size (data (store w')) + b2n (successful_Delete e) =
     size (data (store w)) + b2n (successful_Create e))%nat ∧
  (∀ i v, written e = Some (i, v) → data (store w') !! i = Some v) ∧
  (∀ i v, data (store w') !! i = Some v →
          data (store w) !! i = Some v ∨ written e = Some (i, v)) ∧
  ids_below_nextID w'.
Proof.
  intros Hex Hbelow Hlo Hhi e. subst e.
  pose proof (exec_store _ _ _ _ Hex) as Hst.
  unfold successful_Delete, successful_Create, written, ids_below_nextID.
  cbn [ev_call ev_result ev_heap].
  destruct c as [item | ? ? | ? | id v | id]; cbn [is_Create b2n] in *.
  - destruct Hst as [Hn [(-> & Hret & Hd) | (HP & Hd)]].
    + rewrite Hret, Hd, Hn, int_add_no_overflow by lia. cbn.
      assert (data (store w) !! nextID (store w) = None) as Hfresh.
      { destruct (data (store w) !! nextID (store w)) eqn:E; [|done].
        assert (nextID (store w) < nextID (store w)) by eauto. lia. }
      split; [rewrite map_size_insert_None by done; lia|].
      split; [intros i v [= <- <-]; by rewrite lookup_insert_eq|].
      split.
      * intros i v. rewrite lookup_insert. case_decide; naive_solver.
      * intros i. rewrite lookup_insert. case_decide as Hi.
        -- subst. lia.
        -- intros Hs. specialize (Hbelow _ Hs). lia.
    + destruct res as [a|msg]; [done|]. rewrite Hd, Hn. cbn.
      rewrite int_add_no_overflow by lia.
      split; [lia|]. split; [done|]. split; [auto|].
      intros i Hs. specialize (Hbelow _ Hs). lia.
  - rewrite Hst. split; [by destruct res as [[]|]; cbn; lia|].
    split; [by destruct res as [[]|]|]. by split; [auto|].
  - rewrite Hst. split; [by destruct res as [[]|]; cbn; lia|].
    split; [by destruct res as [[]|]|]. by split; [auto|].
  - destruct Hst as [Hn [(-> & Hs & Hd) | (-> & Hd)]]; rewrite Hd, Hn; cbn.
    + split; [rewrite map_size_insert_Some by done; lia|].
      split; [intros i v' [= <- <-]; by rewrite lookup_insert_eq|].
      split.
      * intros i v'. rewrite lookup_insert. case_decide; naive_solver.
      * intros i. rewrite lookup_insert. case_decide; [subst|]; eauto.
    + split; [lia|]. split; [done|]. by split; [auto|].
  - destruct Hst as [Hn [(-> & Hs & Hd) | (-> & Hd)]]; rewrite Hd, Hn; cbn.
    + split.
      { pose proof (map_size_ne_0_lookup_2 (data (store w)) id Hs).
        rewrite map_size_delete_Some by done. lia. }
      split; [done|]. split.
      * intros i v. rewrite lookup_delete. case_decide; naive_solver.
      * intros i. rewrite lookup_delete. case_decide; [by intros [? ?]|]. eauto.
    + split; [lia|]. split; [done|]. by split; [auto|].
Qed.

Lemma filter_cons_b2n {A} (P : A → bool) x xs :
  length (filter P (x :: xs)) = (b2n (P x) + length (filter P xs))%nat.
Proof. rewrite filter_cons. by destruct (P x). Qed.

(** The whole sequence: the map holds as many entries as Creates returned
    minus Deletes that returned true (on top of what it held before), and
    every entry is either what the trace last wrote for its ID or an
    untouched entry of the initial map. *)
Lemma run_data cs : ∀ w,
  ids_below_nextID w →
  int_min ≤ nextID (store w) →
  nextID (store w) + Z.of_nat (Create_calls cs) ≤ int_max →
  let tr := fst (run cs w) in
  let w' := snd (run cs w) in
  (size (data (store w')) + successful_Deletes tr =
     size (data (store w)) + successful_Creates tr)%nat ∧
  (∀ i v, data (store w') !! i = Some v →
          last_written tr i = Some v ∨
          (last_written tr i = None ∧ data (store w) !! i = Some v)).
Proof.
  induction cs as [|c cs IH]; intros w Hbelow Hlo Hhi.
  - cbn. split; [done|]. auto.
  - rewrite run_cons. cbn [fst snd].
    destruct (exec c w) as [res w1] eqn:Hex. cbn [fst snd].
    unfold Create_calls in Hhi. rewrite filter_cons_b2n in Hhi.
    fold (Create_calls cs) in Hhi.
    destruct (exec_summary _ _ _ _ Hex Hbelow Hlo) as (Hsz & Hwr & Hfrom & Hbelow1);
      [lia|].
    pose proof (exec_store _ _ _ _ Hex) as Hst.
    assert (nextID (store w1) = nextID (store w) + Z.of_nat (b2n (is_Create c)))
      as Hn.
    { destruct c; cbn in Hst |- *; try (rewrite Hst; lia);
        destruct Hst as [-> _]; try lia.
      rewrite int_add_no_overflow; cbn in Hhi; lia. }
    destruct (IH w1 Hbelow1) as [IHsz IHlw]; [lia | lia |].
    split.
    + unfold successful_Deletes, successful_Creates in *.
      rewrite !filter_cons_b2n. lia.
    + intros i v Hi. cbn [last_written].
      destruct (IHlw i v Hi) as [-> | [-> Hw1]]; [by left|].
      destruct (written (mkEvent c res (heap w1))) as [[j v']|] eqn:Hw.
      * case_decide as Hj.
        -- subst j. left. specialize (Hwr _ _ eq_refl). congruence.
        -- right. split; [done|].
           destruct (Hfrom _ _ Hw1) as [?|[= ? ?]]; [done|]. by subst.
      * right. split; [done|]. by destruct (Hfrom _ _ Hw1).
Qed.

(** ** GetAll *)

Lemma assignable_refl t : assignable t t = true.
Proof. unfold assignable. by rewrite bool_decide_eq_true_2. Qed.

(** The loop of GetAll over items that all fit the element type of the
    destination slice: it appends them in order. *)
Lemma GetAll_loop e l (items : list (Z * value)) : ∀ w xs0,
  heap w !! l = Some (VSlice e xs0) →
  Forall (λ p, fits e p.2) items →
  ∃ xs1,
    for_each items (λ '(_, item),
      s' <- Append (Var (TSlice e) l) (ValueOf item) ;;
      Set_ (Var (TSlice e) l) s')%go w =
      (Ok tt, mkWorld (store w) (<[l := VSlice e xs1]> (heap w)) (calls w)) ∧
    default [] xs1 = default [] xs0 ++ items.*2 ∧
    (items = [] → xs1 = xs0).
Proof.
  induction items as [|[k item] items IH]; intros w xs0 Hl Hfit.
  - exists xs0. cbn. rewrite insert_id by done. split; [by destruct w|].
    by rewrite app_nil_r.
  - apply Forall_cons in Hfit as [(t & Ht & Hasg) Hfit].
    cbn [for_each].
    pose (w1 := mkWorld (store w)
                  (<[l := VSlice e (Some (default [] xs0 ++ [item]))]> (heap w))
                  (calls w)).
    destruct (IH w1 (Some (default [] xs0 ++ [item]))) as (xs1 & Hrun & Hxs & _);
      [by cbn; rewrite lookup_insert_eq | done |].
    exists xs1. split; [|split; [|done]].
    + unfold bind at 1.
      assert ((s' <- Append (Var (TSlice e) l) (ValueOf item) ;;
               Set_ (Var (TSlice e) l) s')%go w = (Ok tt, w1)) as ->.
      { destruct item; simplify_eq/=; gos; rewrite assignable_refl; gos;
          by destruct w. }
      rewrite Hrun. cbn. by rewrite insert_insert_eq.
    + rewrite Hxs. cbn. by rewrite <- app_assoc.
Qed.

(** GetAll into a pointer to a slice variable whose element type every
    stored item fits: it returns, leaves the Store alone, and appends the
    stored items to the slice in the order the map is visited. *)
Lemma GetAll_returns e l xs0 w :
  heap w !! l = Some (VSlice e xs0) →
  (∀ id v, data (store w) !! id = Some v → fits e v) →
  ∃ xs1 w',
    GetAll (VPtr (TSlice e) l) w = (Ok tt, w') ∧
    store w' = store w ∧
    heap w' = <[l := VSlice e xs1]> (heap w) ∧
    default [] xs1 = default [] xs0 ++ (range_order (data (store w))).*2 ∧
    (data (store w) = ∅ → xs1 = xs0).
Proof.
  intros Hl Hfit.
  pose (w0 := mkWorld (store w) (heap w) (calls w ++ [MGetAll])).
  destruct (GetAll_loop e l (range_order (data (store w))) w0 xs0)
    as (xs1 & Hrun & Hxs & Hnil); [done| |].
  { apply Forall_forall. intros [k v] Hin. apply (Hfit k).
    apply elem_of_map_to_list. by rewrite <- range_order_perm. }
  exists xs1. eexists. split.
  { unfold GetAll. gos. exact Hrun. }
  cbn. split; [done|]. split; [done|]. split; [done|].
  intros Hempty. apply Hnil. apply Permutation_nil_r.
  rewrite (range_order_perm (data (store w))), Hempty.
  by rewrite map_to_list_empty.
Qed.

(** The destination of the handler, a slice of model structs, cannot
    receive items stored as pointers: on a Store that holds any, GetAll
    panics at the first item it visits. *)
Lemma GetAll_type_mismatch e l xs0 w :
  heap w !! l = Some (VSlice e xs0) →
  data (store w) ≠ ∅ →
  (∀ id v, data (store w) !! id = Some v →
           ∃ t, typeof v = Some t ∧ assignable t e = false) →
  GetAll (VPtr (TSlice e) l) w =
    (Panic "reflect.Set: value is not assignable to type",
     mkWorld (store w) (heap w) (calls w ++ [MGetAll])).
Proof.
  intros Hl Hne Hbad.
  destruct (range_order (data (store w))) as [|[k item] items] eqn:Hro.
  { exfalso. apply Hne. apply map_to_list_empty_iff.
    apply Permutation_nil_r. by rewrite <- range_order_perm, Hro. }
  destruct (Hbad k item) as (t & Ht & Hasg).
  { apply elem_of_map_to_list. rewrite <- range_order_perm, Hro. left. }
  unfold GetAll. gos. rewrite Hro. cbn [for_each].
  destruct item; simplify_eq/=; gos; reflexivity.
Qed.

(** ** C5: GetAll after Creates and Deletes *)

(** For every sequence of Store calls issued on a new Store, in which N
    Creates returned and M Deletes returned true, a GetAll into an empty
    slice whose element type every stored item is assignable to (a slice
    of pointers or of [interface{}]) returns exactly N - M items: one per
    entry of the map, in the order the map is visited, each being the
    value last written for the ID of its entry (by Create or by Update).
    The sequence has fewer Create calls than the largest [int]. *)
Lemma GetAll_into_fitting_slice
    (h0 : gmap loc value) (cs : list call) (tr : list event) (w : World)
    (e : type) (l : loc) (xs0 : option (list value)) :
  run cs (W0 h0) = (tr, w) →
  Z.of_nat (Create_calls cs) < int_max →
  heap w !! l = Some (VSlice e xs0) →
  default [] xs0 = [] →
  (∀ id v, data (store w) !! id = Some v → fits e v) →
  ∃ sl w',
    GetAll (VPtr (TSlice e) l) w = (Ok tt, w') ∧
    store w' = store w ∧
    heap w' !! l = Some sl ∧
    (successful_Deletes tr ≤ successful_Creates tr)%nat ∧
    length (slice_items sl) = (successful_Creates tr - successful_Deletes tr)%nat ∧
    slice_items sl = (range_order (data (store w))).*2 ∧
    Forall (λ p, last_written tr p.1 = Some p.2) (range_order (data (store w))).
Proof.
  intros Hrun Hbound Hl Hempty Hfit.
  destruct (run_data cs (W0 h0)) as [Hsz Hlw].
  { intros id [x Hx]. cbn in Hx. by rewrite lookup_empty in Hx. }
  { cbn. unfold int_min. lia. }
  { cbn. lia. }
  rewrite Hrun in Hsz, Hlw. cbn [fst snd W0 store data NewStore] in Hsz, Hlw.
  rewrite map_size_empty in Hsz.
  destruct (GetAll_returns e l xs0 w Hl Hfit) as (xs1 & w' & HG & Hst & Hh & Hxs & _).
  rewrite Hempty in Hxs. cbn in Hxs.
  assert (slice_items (VSlice e xs1) = (range_order (data (store w))).*2) as Hitems.
  { rewrite <- Hxs. by destruct xs1. }
  exists (VSlice e xs1), w'. split; [done|]. split; [done|].
  split; [by rewrite Hh, lookup_insert_eq|].
  split; [lia|]. split; [|split; [done|]].
  - rewrite Hitems, length_fmap, (range_order_perm (data (store w))).
    rewrite length_map_to_list. lia.
  - apply Forall_forall. intros [id v] Hin. cbn.
    rewrite (range_order_perm (data (store w))) in Hin.
    apply elem_of_map_to_list in Hin.
    destruct (Hlw _ _ Hin) as [?|[_ Hx]]; [done|].
    by rewrite lookup_empty in Hx.
Qed.

(** C5. GetAll appends the stored items with [reflect.Append].  After one
    Create has returned and no Delete, a GetAll that is to populate a
    slice of model structs, as the dispatcher calls it, does not return
    the one record: [reflect.Append] refuses the stored pointer and GetAll
    panics, leaving the slice as it was. *)
Theorem GetAll_into_struct_slice_panics
    (h0 : gmap loc value) (l ls : loc) (r : model) (xs0 : option (list value))
    (tr : list event) (w : World) :
  h0 !! l = Some (VStruct r) →
  h0 !! ls = Some (VSlice TModel xs0) →
  run [CallCreate (VPtr TModel l)] (W0 h0) = (tr, w) →
  successful_Creates tr = 1%nat ∧
  successful_Deletes tr = 0%nat ∧
  size (data (store w)) = 1%nat ∧
  ∃ msg w',
    GetAll (VPtr (TSlice TModel) ls) w = (Panic msg, w') ∧
    store w' = store w ∧ heap w' = heap w.
Proof.
  intros Hl Hls. cbn [run exec W0]. rewrite bind_ret_eq.
  rewrite (Create_returns _ _ r) by done. cbn [fst snd]. intros [= <- <-].
  split; [reflexivity|]. split; [reflexivity|].
  cbn [store data heap NewStore nextID].
  split; [by rewrite insert_empty, map_size_singleton|].
  assert (l ≠ ls) as Hne by (intros ->; congruence).
  eexists _, _. split.
  { rewrite (GetAll_type_mismatch TModel ls xs0); cbn [store data heap];
        [ reflexivity
        | by rewrite lookup_insert_ne
        | apply insert_non_empty
        | intros id v; rewrite insert_empty;
          intros [<- <-]%lookup_singleton_Some; by eexists ]. }
  split; reflexivity.
Qed.

(** ** The dispatcher, branch by branch *)

Lemma in_world_eq {A} (m : M World A) w (rw : @ResponseWriter Fields) :
  in_world m (w, rw) = (fst (m w), (snd (m w), rw)).
Proof. unfold in_world, zoom. cbn. by destruct (m w). Qed.

Lemma fresh_loc_None h : h !! fresh (dom h) = None.
Proof. apply not_elem_of_dom. apply is_fresh. Qed.

Lemma marshal_struct n h t l r :
  h !! l = Some (VStruct r) →
  marshal (S (S n)) h (VPtr t l) = Some (JObject r).
Proof. intros Hl. cbn. by rewrite Hl. Qed.

Lemma marshal_nil_slice n h t e l :
  h !! l = Some (VSlice e None) →
  marshal (S (S n)) h (VPtr t l) = Some JNull.
Proof. intros Hl. cbn. by rewrite Hl. Qed.

Lemma Encode_struct t l r w (rw : @ResponseWriter Fields) :
  heap w !! l = Some (VStruct r) →
  Encode (VPtr t l) (w, rw) = (Ok tt, (w, Write (JSON (JObject r)) rw)).
Proof.
  intros Hl. unfold Encode, bind, gets, respond, modify. cbn [fst snd].
  change startDetectingCyclesAfter with (S (S 998)).
  by rewrite (marshal_struct _ _ _ _ _ Hl).
Qed.

Lemma Encode_nil_slice t e l w (rw : @ResponseWriter Fields) :
  heap w !! l = Some (VSlice e None) →
  Encode (VPtr t l) (w, rw) = (Ok tt, (w, Write (JSON JNull) rw)).
Proof.
  intros Hl. unfold Encode, bind, gets, respond, modify. cbn [fst snd].
  change startDetectingCyclesAfter with (S (S 998)).
  by rewrite (marshal_nil_slice _ _ _ _ _ Hl).
Qed.

(** Encode writes at most one JSON document and nothing else. *)
Lemma Encode_cases x w (rw : @ResponseWriter Fields) :
  Encode x (w, rw) = (Ok tt, (w, rw)) ∨
  ∃ j, Encode x (w, rw) = (Ok tt, (w, Write (JSON j) rw)).
Proof.
  unfold Encode, bind, gets, respond, modify. cbn [fst snd].
  destruct (marshal _ _ _); eauto.
Qed.

Lemma New_eq t w :
  New t w = (Ok (VPtr t (fresh (dom (heap w)))), allocated (zero_value t) w).
Proof. reflexivity. Qed.

Lemma Decode_ok b d l w :
  json_decode b = Some d →
  Decode b (VPtr TModel l) w =
    (Ok true, mkWorld (store w) (<[l := VStruct d]> (heap w)) (calls w)).
Proof. intros Hd. unfold Decode. rewrite Hd. reflexivity. Qed.

Lemma Decode_error b x w :
  json_decode b = None → Decode b x w = (Ok false, w).
Proof. intros Hd. unfold Decode. by rewrite Hd. Qed.

Ltac method_is HM :=
  unfold handleRequest; rewrite HM; simpl (String.eqb _ _); cbv iota.

(** POST with a body that decodes to [d]. *)
Lemma handle_POST req d w rw :
  Method req = "POST" →
  json_decode (Body req) = Some d →
  let l := fresh (dom (heap w)) in
  let id := nextID (store w) in
  handleRequest req (w, rw) =
    (Ok tt,
     (mkWorld (mkStore (<[id := VPtr TModel l]> (data (store w))) (int_add id 1))
              (<[l := VStruct (setID id d)]> (heap w))
              (calls w ++ [MCreate]),
      Write (JSON (JObject (setID id d))) (WriteHeader StatusCreated rw))).
Proof.
  intros HM Hd l id. method_is HM.
  unfold bind at 1. rewrite in_world_eq, New_eq. cbn [fst snd].
  unfold bind at 1. rewrite in_world_eq, (Decode_ok _ d) by done.
  cbn [fst snd negb allocated store heap calls].
  unfold bind at 1. rewrite in_world_eq.
  rewrite (Create_returns _ _ d) by (cbn; by rewrite lookup_insert_eq).
  cbn [fst snd store heap calls data nextID].
  unfold bind at 1, respond at 1, modify. cbn [fst snd].
  rewrite (Encode_struct _ _ (setID id d)) by (cbn; by rewrite lookup_insert_eq).
  by rewrite !insert_insert_eq.
Qed.

(** POST with a body that does not decode. *)
Lemma handle_POST_bad_body req w rw :
  Method req = "POST" →
  json_decode (Body req) = None →
  handleRequest req (w, rw) =
    (Ok tt,
     (allocated (VStruct zero_model) w,
      http_Error "Invalid request payload" StatusBadRequest rw)).
Proof.
  intros HM Hd. method_is HM.
  unfold bind at 1. rewrite in_world_eq, New_eq. cbn [fst snd].
  unfold bind at 1. rewrite in_world_eq, Decode_error by done.
  reflexivity.
Qed.

(** GET without an id: the dispatcher allocates a nil slice of model
    structs, calls GetAll on it, and encodes it if GetAll returns. *)
Lemma handle_GET_all req w rw :
  Method req = "GET" →
  Query_Get (Query req) "id" = EmptyString →
  handleRequest req (w, rw) =
    match GetAll (VPtr (TSlice TModel) (fresh (dom (heap w))))
                 (allocated (VSlice TModel None) w) with
    | (Ok _, w2) =>
        Encode (VPtr (TSlice TModel) (fresh (dom (heap w))))
               (w2, Header_Set "Content-Type" "application/json" rw)
    | (Panic msg, w2) => (Panic msg, (w2, rw))
    end.
Proof.
  intros HM Hq. method_is HM. rewrite Hq. cbn [String.eqb].
  unfold bind at 1. rewrite in_world_eq, New_eq. cbn [fst snd].
  unfold bind at 1. rewrite in_world_eq. cbn [zero_value modelType].
  destruct (GetAll _ _) as [[[]|msg] w2]; reflexivity.
Qed.

(** GET with an id that parses. *)
Lemma handle_GET_id req id w rw :
  Method req = "GET" →
  Query_Get (Query req) "id" ≠ EmptyString →
  Atoi (Query_Get (Query req) "id") = Some id →
  handleRequest req (w, rw) =
    match Get id (VPtr TModel (fresh (dom (heap w))))
              (allocated (VStruct zero_model) w) with
    | (Ok true, w2) =>
        Encode (VPtr TModel (fresh (dom (heap w))))
               (w2, Header_Set "Content-Type" "application/json" rw)
    | (Ok false, w2) =>
        (Ok tt, (w2, http_Error "Item not found" StatusNotFound rw))
    | (Panic msg, w2) => (Panic msg, (w2, rw))
    end.
Proof.
  intros HM Hq HA. method_is HM.
  apply String.eqb_neq in Hq. rewrite Hq, HA.
  unfold bind at 1. rewrite in_world_eq, New_eq. cbn [fst snd].
  unfold bind at 1. rewrite in_world_eq. cbn [zero_value modelType].
  destruct (Get _ _ _) as [[[]|msg] w2]; reflexivity.
Qed.

(** GET, PUT and DELETE with an id that does not parse (GET: and is not
    empty): 400, and the world is untouched. *)
Lemma handle_bad_id req w rw :
  (Method req = "GET" ∧ Query_Get (Query req) "id" ≠ EmptyString) ∨
  Method req = "PUT" ∨ Method req = "DELETE" →
  Atoi (Query_Get (Query req) "id") = None →
  handleRequest req (w, rw) =
    (Ok tt, (w, http_Error "Invalid ID" StatusBadRequest rw)).
Proof.
  intros [[HM Hq] | [HM | HM]] HA; method_is HM; rewrite ?HA; try reflexivity.
  apply String.eqb_neq in Hq. by rewrite Hq.
Qed.

(** PUT with an id that parses. *)
Lemma handle_PUT req id d w rw :
  Method req = "PUT" →
  Atoi (Query_Get (Query req) "id") = Some id →
  json_decode (Body req) = Some d →
  let l := fresh (dom (heap w)) in
  handleRequest req (w, rw) =
    match data (store w) !! id with
    | Some _ =>
        (Ok tt,
         (mkWorld (mkStore (<[id := VPtr TModel l]> (data (store w)))
                           (nextID (store w)))
                  (<[l := VStruct d]> (heap w)) (calls w ++ [MUpdate]),
          Write (JSON (JObject d))
            (Header_Set "Content-Type" "application/json" rw)))
    | None =>
        (Ok tt,
         (mkWorld (store w) (<[l := VStruct d]> (heap w)) (calls w ++ [MUpdate]),
          http_Error "Item not found" StatusNotFound rw))
    end.
Proof.
  intros HM HA Hd l. method_is HM. rewrite HA.
  unfold bind at 1. rewrite in_world_eq, New_eq. cbn [fst snd].
  unfold bind at 1. rewrite in_world_eq, (Decode_ok _ d) by done.
  cbn [fst snd negb allocated store heap calls].
  unfold bind at 1. rewrite in_world_eq. rewrite insert_insert_eq.
  destruct (data (store w) !! id) as [x|] eqn:Hid.
  - rewrite Update_present by (cbn; eauto). cbn [fst snd store heap calls data nextID].
    unfold bind at 1, respond at 1, modify. cbn [fst snd].
    by rewrite (Encode_struct _ _ d) by (cbn; by rewrite lookup_insert_eq).
  - rewrite Update_absent by done. reflexivity.
Qed.

Lemma handle_PUT_bad_body req id w rw :
  Method req = "PUT" →
  Atoi (Query_Get (Query req) "id") = Some id →
  json_decode (Body req) = None →
  handleRequest req (w, rw) =
    (Ok tt,
     (allocated (VStruct zero_model) w,
      http_Error "Invalid request payload" StatusBadRequest rw)).
Proof.
  intros HM HA Hd. method_is HM. rewrite HA.
  unfold bind at 1. rewrite in_world_eq, New_eq. cbn [fst snd].
  unfold bind at 1. rewrite in_world_eq, Decode_error by done.
  reflexivity.
Qed.

(** DELETE with an id that parses. *)
Lemma handle_DELETE req id w rw :
  Method req = "DELETE" →
  Atoi (Query_Get (Query req) "id") = Some id →
  handleRequest req (w, rw) =
    match data (store w) !! id with
    | Some _ =>
        (Ok tt,
         (mkWorld (mkStore (delete id (data (store w))) (nextID (store w)))
                  (heap w) (calls w ++ [MDelete]),
          WriteHeader StatusNoContent rw))
    | None =>
        (Ok tt,
         (mkWorld (store w) (heap w) (calls w ++ [MDelete]),
          http_Error "Item not found" StatusNotFound rw))
    end.
Proof.
  intros HM HA. method_is HM. rewrite HA.
  unfold bind at 1. rewrite in_world_eq.
  destruct (data (store w) !! id) as [x|] eqn:Hid.
  - rewrite Delete_present by eauto. reflexivity.
  - rewrite Delete_absent by done. reflexivity.
Qed.

(** Any other method. *)
Lemma handle_other req w rw :
  Method req ≠ "POST" → Method req ≠ "GET" →
  Method req ≠ "PUT" → Method req ≠ "DELETE" →
  handleRequest req (w, rw) =
    (Ok tt, (w, http_Error "Unsupported method" StatusMethodNotAllowed rw)).
Proof.
  intros H1 H2 H3 H4. unfold handleRequest.
  apply String.eqb_neq in H1, H2, H3, H4. by rewrite H1, H2, H3, H4.
Qed.

(** ** What the client receives *)

Lemma status_http_Error msg code rw :
  wroteHeader rw = None → status (http_Error msg code rw) = Some code.
Proof.
  intros Hw. unfold status, http_Error, Write, WriteHeader, Header_Set, Header_Del.
  cbn. rewrite Hw. cbn. reflexivity.
Qed.

Lemma status_Write c rw :
  wroteHeader rw = None → status (Write c rw) = Some StatusOK.
Proof. intros Hw. unfold status, Write, WriteHeader. by rewrite Hw. Qed.

Lemma status_Write_after_WriteHeader c code rw :
  wroteHeader rw = None → status (Write c (WriteHeader code rw)) = Some code.
Proof. intros Hw. unfold status, Write, WriteHeader. by rewrite Hw. Qed.

Lemma Get_false id result w w' :
  Get id result w = (Ok false, w') →
  data (store w) !! id = None ∧
  w' = mkWorld (store w) (heap w) (calls w ++ [MGet]).
Proof.
  destruct (data (store w) !! id) as [item|] eqn:Hid.
  - go. rewrite Hid. repeat (case_match; simplify_eq/=); intros; simplify_eq.
  - rewrite Get_absent by done. by intros [= <-].
Qed.

(** ** C6: GET without an id *)

(** C6. A GET request without an [id] query parameter makes the
    dispatcher call GetAll on a nil slice of model structs and encode that
    slice.  On an empty Store the loop of GetAll does not run, the slice
    stays nil, and the response is 200 with the JSON document [null], not
    an empty array.  On a Store that holds items as the dispatcher stores
    them (pointers to model structs), [reflect.Append] refuses the first
    item, GetAll panics, and the dispatcher writes no response at all. *)
Theorem GET_without_id_does_not_list req w :
  Method req = "GET" →
  Query_Get (Query req) "id" = EmptyString →
  (data (store w) = ∅ →
   ∃ w' rw',
     handleRequest req (w, NewResponseWriter) = (Ok tt, (w', rw')) ∧
     store w' = store w ∧
     status rw' = Some StatusOK ∧
     sent_header rw' "Content-Type" = Some "application/json" ∧
     body rw' = [JSON JNull]) ∧
  (data (store w) ≠ ∅ →
   (∀ id v, data (store w) !! id = Some v → ∃ l, v = VPtr TModel l) →
   ∃ msg w',
     handleRequest req (w, NewResponseWriter) =
       (Panic msg, (w', NewResponseWriter)) ∧
     store w' = store w).
Proof.
  intros HM Hq. rewrite (handle_GET_all _ _ _ HM Hq). split.
  - intros Hempty.
    destruct (GetAll_returns TModel (fresh (dom (heap w))) None
                (allocated (VSlice TModel None) w))
      as (xs1 & w' & HG & Hst & Hh & _ & Hnil).
    { cbn. by rewrite lookup_insert_eq. }
    { cbn. intros id v. by rewrite Hempty, lookup_empty. }
    rewrite HG. rewrite (Hnil Hempty) in Hh.
    rewrite (Encode_nil_slice _ TModel)
      by (rewrite Hh; cbn; by rewrite lookup_insert_eq).
    by eexists _, _.
  - intros Hne Hptr.
    rewrite (GetAll_type_mismatch TModel _ None).
    + by eexists _, _.
    + cbn. by rewrite lookup_insert_eq.
    + done.
    + cbn. intros id v Hv. destruct (Hptr _ _ Hv) as [l ->]. by eexists.
Qed.

(** ** C7: the Content-Type of JSON responses *)

(** C7. A POST whose body decodes is answered 201 with the JSON of the
    created record, but the dispatcher never sets a Content-Type header on
    that path: the header map is still empty when [WriteHeader] sends it
    (the HTTP server then fills in a type it sniffs from the body, which
    for JSON text is text/plain).  The GET and PUT paths set
    [application/json] before they write. *)
Theorem POST_response_has_no_Content_Type req d w :
  Method req = "POST" →
  json_decode (Body req) = Some d →
  ∃ w' rw',
    handleRequest req (w, NewResponseWriter) = (Ok tt, (w', rw')) ∧
    status rw' = Some StatusCreated ∧
    body rw' = [JSON (JObject (setID (nextID (store w)) d))] ∧
    Header rw' !! "Content-Type" = None ∧
    sent_header rw' "Content-Type" = None.
Proof.
  intros HM Hd. rewrite (handle_POST _ _ _ _ HM Hd). by eexists _, _.
Qed.

(** The sibling path: a PUT that finds its ID sets the header before it
    writes the body. *)
Lemma PUT_response_Content_Type req id d w :
  Method req = "PUT" →
  Atoi (Query_Get (Query req) "id") = Some id →
  json_decode (Body req) = Some d →
  is_Some (data (store w) !! id) →
  ∃ w' rw',
    handleRequest req (w, NewResponseWriter) = (Ok tt, (w', rw')) ∧
    status rw' = Some StatusOK ∧
    body rw' = [JSON (JObject d)] ∧
    sent_header rw' "Content-Type" = Some "application/json".
Proof.
  intros HM HA Hd [x Hid]. rewrite (handle_PUT _ _ _ _ _ HM HA Hd), Hid.
  by eexists _, _.
Qed.

(** A GET by id never reaches its 200 branch on an item the dispatcher
    stored: Get panics before any header is set. *)
Lemma GET_stored_id_panics req id l w rw :
  Method req = "GET" →
  Query_Get (Query req) "id" ≠ EmptyString →
  Atoi (Query_Get (Query req) "id") = Some id →
  data (store w) !! id = Some (VPtr TModel l) →
  ∃ msg w', handleRequest req (w, rw) = (Panic msg, (w', rw)) ∧ store w' = store w.
Proof.
  intros HM Hq HA Hid. rewrite (handle_GET_id _ _ _ _ HM Hq HA).
  rewrite (Get_type_mismatch _ (VPtr TModel l) (TPtr TModel) TModel); try done.
  - by eexists _, _.
  - cbn. rewrite lookup_insert_eq. by eexists.
Qed.

(** ** C9: a client-supplied id in a POST body *)

(** C9. For every POST request whose body decodes, whatever [ID] the
    decoded record carries (an [id] supplied by the client included),
    Create overwrites it with the current [nextID] before storing the
    record: the 201 response carries the decoded record with the
    Store-assigned ID, the Store holds that record under that ID, and
    [nextID] moves on. *)
Theorem POST_ignores_supplied_id req d w :
  Method req = "POST" →
  json_decode (Body req) = Some d →
  ∃ w' rw' l,
    handleRequest req (w, NewResponseWriter) = (Ok tt, (w', rw')) ∧
    status rw' = Some StatusCreated ∧
    body rw' = [JSON (JObject (Model (nextID (store w)) (fields d)))] ∧
    data (store w') = <[nextID (store w) := VPtr TModel l]> (data (store w)) ∧
    heap w' !! l = Some (VStruct (Model (nextID (store w)) (fields d))) ∧
    nextID (store w') = int_add (nextID (store w)) 1.
Proof.
  intros HM Hd. rewrite (handle_POST _ _ _ _ HM Hd).
  eexists _, _, _. split; [done|]. cbn [store data nextID heap].
  split; [done|]. split; [done|]. split; [done|].
  split; [by rewrite lookup_insert_eq|done].
Qed.

(** ** C10: PUT and DELETE without an id *)

Lemma Query_Get_absent key q : absent key q → Query_Get q key = EmptyString.
Proof.
  induction 1 as [|[k v] q Hk _ IH]; [done|]. cbn in *.
  apply String.eqb_neq in Hk. by rewrite Hk.
Qed.

(** C10. For every PUT or DELETE request that carries no [id] query
    parameter at all, [Query().Get] yields the empty string, [Atoi] fails
    on it, and the dispatcher answers 400 (Invalid ID) without entering
    any Store method: the world, call log included, is as before.  A GET
    without the parameter is the one case that is served: it enters
    GetAll. *)
Theorem PUT_DELETE_without_id req w :
  absent "id" (Query req) →
  Atoi (Query_Get (Query req) "id") = None ∧
  (Method req = "PUT" ∨ Method req = "DELETE" →
   ∃ rw',
     handleRequest req (w, NewResponseWriter) = (Ok tt, (w, rw')) ∧
     status rw' = Some StatusBadRequest ∧
     body rw' = [Text "Invalid ID"]) ∧
  (Method req = "GET" →
   calls (fst (snd (handleRequest req (w, NewResponseWriter)))) =
     calls w ++ [MGetAll]).
Proof.
  intros Habs. pose proof (Query_Get_absent _ _ Habs) as Hq.
  split; [by rewrite Hq|]. split.
  - intros HM. rewrite handle_bad_id; [|tauto|by rewrite Hq].
    by eexists.
  - intros HM. rewrite (handle_GET_all _ _ _ HM Hq).
    pose proof (GetAll_calls (VPtr (TSlice TModel) (fresh (dom (heap w))))
                  (allocated (VSlice TModel None) w)) as HC.
    destruct (GetAll _ _) as [[[]|msg] w2]; cbn [snd] in HC; [|done].
    by destruct (Encode_cases (VPtr (TSlice TModel) (fresh (dom (heap w)))) w2
                   (Header_Set "Content-Type" "application/json" NewResponseWriter))
      as [-> | [j ->]].
Qed.

(** ** C8: error responses *)

Lemma allocated_heap x w l y :
  heap w !! l = Some y → heap (allocated x w) !! l = Some y.
Proof.
  intros Hl. cbn. rewrite lookup_insert_ne; [done|].
  intros <-. by rewrite fresh_loc_None in Hl.
Qed.

Lemma status_Encode x w w' rw rw' res :
  wroteHeader rw = None →
  Encode x (w, rw) = (res, (w', rw')) →
  status rw' = None ∨ status rw' = Some StatusOK.
Proof.
  intros Hw. destruct (Encode_cases x w rw) as [-> | [j ->]]; intros [= <- <- <-].
  - left. unfold status. by rewrite Hw.
  - right. by apply status_Write.
Qed.

(** C8. For every request that the dispatcher answers with 400, 404 or
    405, handling the request returns normally and leaves the Store as it
    was: the same map and the same [nextID]; on the heap, every variable
    that existed keeps its value (the dispatcher may have allocated a
    scratch record of its own). *)
Theorem error_responses_leave_Store_unchanged req w rw res w' rw' :
  wroteHeader rw = None →
  handleRequest req (w, rw) = (res, (w', rw')) →
  status rw' = Some StatusBadRequest ∨
  status rw' = Some StatusNotFound ∨
  status rw' = Some StatusMethodNotAllowed →
  res = Ok tt ∧
  store w' = store w ∧
  (∀ l x, heap w !! l = Some x → heap w' !! l = Some x).
Proof.
  intros Hw Hrun Hst.
  assert (status rw = None) as Hnone by (unfold status; by rewrite Hw).
  assert (∀ c, status rw' = Some c →
               c = StatusBadRequest ∨ c = StatusNotFound ∨
               c = StatusMethodNotAllowed) as Hcode.
  { intros c Hc. rewrite Hc in Hst.
    destruct Hst as [[= ->] | [[= ->] | [= ->]]]; auto. }
  assert (∀ c, status rw' = Some c →
               c ≠ StatusOK ∧ c ≠ StatusCreated ∧ c ≠ StatusNoContent) as Hno.
  { intros c Hc. apply Hcode in Hc. unfold StatusBadRequest, StatusNotFound,
      StatusMethodNotAllowed, StatusOK, StatusCreated, StatusNoContent in *. lia. }
  assert (status rw' ≠ None) as Hsome.
  { destruct Hst as [-> | [-> | ->]]; done. }
  clear Hst Hcode.
  destruct (decide (Method req = "POST")) as [HM|HnP].
  { destruct (json_decode (Body req)) as [d|] eqn:Hd.
    - rewrite (handle_POST _ _ _ _ HM Hd) in Hrun. injection Hrun as <- <- <-.
      destruct (Hno StatusCreated) as (_ & ? & _); [|done].
      by apply status_Write_after_WriteHeader.
    - rewrite (handle_POST_bad_body _ _ _ HM Hd) in Hrun.
      injection Hrun as <- <- <-. split; [done|]. split; [done|].
      intros l x. apply allocated_heap. }
  destruct (decide (Method req = "GET")) as [HM|HnG].
  { destruct (decide (Query_Get (Query req) "id" = EmptyString)) as [Hq|Hq].
    - rewrite (handle_GET_all _ _ _ HM Hq) in Hrun.
      destruct (GetAll _ _) as [[[]|msg] w2].
      + apply status_Encode in Hrun as [Hs | Hs]; [done | | done].
        by destruct (Hno _ Hs).
      + by injection Hrun as <- <- <-.
    - destruct (Atoi (Query_Get (Query req) "id")) as [id|] eqn:HA.
      + rewrite (handle_GET_id _ _ _ _ HM Hq HA) in Hrun.
        destruct (Get _ _ _) as [[[|]|msg] w2] eqn:HG.
        * apply status_Encode in Hrun as [Hs | Hs]; [done | | done].
          by destruct (Hno _ Hs).
        * injection Hrun as <- <- <-. apply Get_false in HG as [_ ->].
          split; [done|]. split; [done|]. intros l x. apply allocated_heap.
        * by injection Hrun as <- <- <-.
      + rewrite handle_bad_id in Hrun by auto. by injection Hrun as <- <- <-. }
  destruct (decide (Method req = "PUT")) as [HM|HnU].
  { destruct (Atoi (Query_Get (Query req) "id")) as [id|] eqn:HA.
    - destruct (json_decode (Body req)) as [d|] eqn:Hd.
      + rewrite (handle_PUT _ _ _ _ _ HM HA Hd) in Hrun.
        destruct (data (store w) !! id); injection Hrun as <- <- <-.
        * destruct (Hno StatusOK) as (? & _); [|done]. by apply status_Write.
        * split; [done|]. split; [done|]. intros l x. apply allocated_heap.
      + rewrite (handle_PUT_bad_body _ _ _ _ HM HA Hd) in Hrun.
        injection Hrun as <- <- <-. split; [done|]. split; [done|].
        intros l x. apply allocated_heap.
    - rewrite handle_bad_id in Hrun by auto. by injection Hrun as <- <- <-. }
  destruct (decide (Method req = "DELETE")) as [HM|HnD].
  { destruct (Atoi (Query_Get (Query req) "id")) as [id|] eqn:HA.
    - rewrite (handle_DELETE _ _ _ _ HM HA) in Hrun.
      destruct (data (store w) !! id); injection Hrun as <- <- <-.
      + destruct (Hno StatusNoContent) as (_ & _ & ?); [|done].
        unfold status, WriteHeader. by rewrite Hw.
      + done.
    - rewrite handle_bad_id in Hrun by auto. by injection Hrun as <- <- <-. }
  rewrite handle_other in Hrun by done. by injection Hrun as <- <- <-.
Qed.

(** * Further properties of the Store *)

(** ** Create *)

(** X1. Create takes the next ID before it looks at its argument.  Called
    with anything but a pointer to a model struct (a struct passed by
    value, the nil interface, a slice, a pointer to something else), it
    panics; the map and the heap are as before, but [nextID] has moved on:
    the ID is used up and never handed out. *)
Theorem Create_panic_uses_up_ID (item : value) (w : World) :
  (∀ l, item = VPtr TModel l → ∀ r, heap w !! l ≠ Some (VStruct r)) →
  ∃ msg w',
    Create item w = (Panic msg, w') ∧
    nextID (store w') = int_add (nextID (store w)) 1 ∧
    data (store w') = data (store w) ∧
    heap w' = heap w.
Proof.
  intros Hbad. destruct (Create item w) as [res w'] eqn:HC.
  destruct (Create_cases _ _ _ _ HC)
    as (Hn & [(l & r & -> & Hl & _) | (HP & Hd & Hh)]).
  - by destruct (Hbad l eq_refl r).
  - destruct res as [?|msg]; [done|]. by exists msg, w'.
Qed.

(** X2. Create stores the pointer it is given, not a copy of the record.
    Creating the same record twice leaves two entries that share it, and
    the second Create rewrites its ID field: the record found under the
    first ID then carries the second ID. *)
Theorem Create_twice_shares_the_record (w : World) (l : loc) (r : model) :
  heap w !! l = Some (VStruct r) →
  ∃ w1 w2,
    Create (VPtr TModel l) w = (Ok (VPtr TModel l), w1) ∧
    Create (VPtr TModel l) w1 = (Ok (VPtr TModel l), w2) ∧
    data (store w2) !! nextID (store w) = Some (VPtr TModel l) ∧
    data (store w2) !! nextID (store w1) = Some (VPtr TModel l) ∧
    nextID (store w1) = int_add (nextID (store w)) 1 ∧
    heap w2 !! l = Some (VStruct (Model (nextID (store w1)) (fields r))).
Proof.
  intros Hl. eexists _, _. split; [by apply Create_returns|].
  split.
  { apply Create_returns. cbn [heap]. by rewrite lookup_insert_eq. }
  cbn [store data nextID heap]. split.
  { rewrite lookup_insert. case_decide; [done|]. by rewrite lookup_insert_eq. }
  split; [by rewrite lookup_insert_eq|]. split; [done|].
  by rewrite lookup_insert_eq.
Qed.

(** X3. The counter is an [int] and Create increments it without a check:
    when [nextID] is the largest [int], Create hands that ID out and the
    counter wraps to the smallest [int], so the next Create hands out a
    negative ID, below the one before. *)
Theorem Create_wraps_at_int_max (w : World) (l l' : loc) (r r' : model) :
  nextID (store w) = int_max →
  heap w !! l = Some (VStruct r) →
  heap w !! l' = Some (VStruct r') →
  l ≠ l' →
  ∃ w1 w2,
    Create (VPtr TModel l) w = (Ok (VPtr TModel l), w1) ∧
    returned_ID (heap w1) (VPtr TModel l) = Some int_max ∧
    nextID (store w1) = int_min ∧
    Create (VPtr TModel l') w1 = (Ok (VPtr TModel l'), w2) ∧
    returned_ID (heap w2) (VPtr TModel l') = Some int_min.
Proof.
  intros Hmax Hl Hl' Hne. eexists _, _.
  split; [by apply Create_returns|]. cbn [heap store nextID].
  split; [by rewrite Hmax, returned_ID_created|].
  split; [by rewrite Hmax|].
  split.
  { apply (Create_returns _ _ r'). cbn [heap]. by rewrite lookup_insert_ne. }
  cbn [heap store nextID]. rewrite Hmax.
  change (int_add int_max 1) with int_min. apply returned_ID_created.
Qed.

(** ** Update and Delete *)

(** X4. Update never adds or removes an ID: whatever the arguments, the
    set of stored IDs, [nextID] and the heap are unchanged, every other
    entry keeps its value, and the result tells whether the ID was
    stored. *)
Theorem Update_keeps_the_ids (id : Z) (v : value) (w : World) :
  ∃ w',
    Update id v w = (Ok (bool_decide (is_Some (data (store w) !! id))), w') ∧
    dom (data (store w')) = dom (data (store w)) ∧
    nextID (store w') = nextID (store w) ∧
    heap w' = heap w ∧
    (∀ id', id' ≠ id → data (store w') !! id' = data (store w) !! id').
Proof.
  destruct (data (store w) !! id) as [x|] eqn:Hid.
  - eexists. rewrite Update_present by eauto.
    split; [by rewrite bool_decide_eq_true_2 by eauto|].
    cbn [store data nextID heap].
    split; [by apply dom_insert_lookup_L|]. split; [done|]. split; [done|].
    intros id' Hne. by rewrite lookup_insert_ne.
  - eexists. rewrite Update_absent by done.
    split; [rewrite bool_decide_eq_false_2; [done|by intros [? ?]]|]. done.
Qed.

(** X5. Delete removes the one entry and nothing else: whatever the ID,
    it is not stored afterwards, every other entry keeps its value, and
    [nextID] and the heap are unchanged (the record itself is not touched,
    and the ID is not given back to the counter). *)
Theorem Delete_removes_only_that_entry (id : Z) (w : World) :
  ∃ b w',
    Delete id w = (Ok b, w') ∧
    data (store w') = delete id (data (store w)) ∧
    data (store w') !! id = None ∧
    (∀ id', id' ≠ id → data (store w') !! id' = data (store w) !! id') ∧
    nextID (store w') = nextID (store w) ∧
    heap w' = heap w.
Proof.
  destruct (data (store w) !! id) as [x|] eqn:Hid.
  - eexists _, _. rewrite Delete_present by eauto. split; [done|].
    cbn [store data nextID heap]. split; [done|].
    split; [apply lookup_delete_eq|]. split; [|done].
    intros id' Hne. by rewrite lookup_delete_ne.
  - eexists _, _. rewrite Delete_absent by done. split; [done|].
    cbn [store data nextID heap]. split; [by rewrite delete_id|].
    split; [done|]. done.
Qed.

(** ** Get and GetAll *)

(** X6. Get and GetAll only read the Store: whatever the arguments, and
    whether they return or panic, the map and [nextID] are as before. *)
Theorem reads_leave_the_Store_unchanged (id : Z) (result : value) (w : World) :
  store (snd (Get id result w)) = store w ∧
  store (snd (GetAll result w)) = store w.
Proof. split; [apply keeps_store_Get | apply keeps_store_GetAll]. Qed.


(** X21. The one way in which Get fills a result struct: a record put in
    the Store by value (Update accepts any value) and read into a struct
    variable.  Update on a stored ID followed by Get returns true, the
    variable holds exactly the record given to Update, with the ID field
    it came with, and the Store is not changed by the Get. *)
Theorem Update_by_value_then_Get_round_trip
    (w : World) (id : Z) (r2 : model) (ld : loc) :
  is_Some (data (store w) !! id) →
  is_Some (heap w !! ld) →
  ∃ w1 w2,
    Update id (VStruct r2) w = (Ok true, w1) ∧
    Get id (VPtr TModel ld) w1 = (Ok true, w2) ∧
    heap w2 !! ld = Some (VStruct r2) ∧
    store w2 = store w1 ∧
    data (store w2) !! id = Some (VStruct r2).
Proof.
  intros Hid Hld.
  destruct (Update_replaces_wholesale w id (VStruct r2) TModel TModel ld)
    as (w1 & w2 & HU & Hd & _ & _ & HG & Hs & Hh & _); try done.
  exists w1, w2. split; [done|]. split; [done|]. split; [done|].
  split; [done|]. by rewrite Hs, Hd, lookup_insert_eq.
Qed.

(** X22. Get into an [interface{}] variable after Create: Get returns
    true and the variable holds the very pointer that was given to Create
    (not a copy of the record), through which the caller reads the record
    with the assigned ID; the Store is not changed by the Get. *)
Theorem Create_then_Get_delivers_the_same_pointer
    (w : World) (l ld : loc) (r : model) :
  heap w !! l = Some (VStruct r) →
  is_Some (heap w !! ld) →
  ld ≠ l →
  ∃ w1 w2,
    Create (VPtr TModel l) w = (Ok (VPtr TModel l), w1) ∧
    Get (nextID (store w)) (VPtr TIface ld) w1 = (Ok true, w2) ∧
    heap w2 !! ld = Some (VPtr TModel l) ∧
    returned_ID (heap w2) (VPtr TModel l) = Some (nextID (store w)) ∧
    store w2 = store w1.
Proof.
  intros Hl Hld Hne.
  destruct (Create_then_Get_into_pointer_variable w l ld TIface r)
    as (w1 & w2 & HC & _ & HG & Hd & Hrec); try done.
  exists w1, w2. split; [done|]. split; [done|]. split; [done|].
  split; [unfold returned_ID; by rewrite Hrec|].
  pose proof (keeps_store_Get (nextID (store w)) (VPtr TIface ld) w1) as HS.
  by rewrite HG in HS.
Qed.

(** ** Sequences of calls *)

Lemma run_app cs1 cs2 w :
  run (cs1 ++ cs2) w =
    (fst (run cs1 w) ++ fst (run cs2 (snd (run cs1 w))),
     snd (run cs2 (snd (run cs1 w)))).
Proof.
  revert w. induction cs1 as [|c cs1 IH]; intros w.
  - cbn. by destruct (run cs2 w).
  - cbn [app]. rewrite !run_cons, IH. reflexivity.
Qed.

Lemma Create_calls_app (cs1 cs2 : list (@call Fields)) :
  Create_calls (cs1 ++ cs2) = (Create_calls cs1 + Create_calls cs2)%nat.
Proof. unfold Create_calls. by rewrite filter_app, length_app. Qed.

Lemma run_ids_below cs : ∀ w,
  ids_below_nextID w →
  int_min ≤ nextID (store w) →
  nextID (store w) + Z.of_nat (Create_calls cs) ≤ int_max →
  ids_below_nextID (snd (run cs w)).
Proof.
  induction cs as [|c cs IH]; intros w Hbelow Hlo Hhi; [done|].
  rewrite run_cons. cbn [snd].
  destruct (exec c w) as [res w1] eqn:Hex. cbn [fst snd].
  unfold Create_calls in Hhi. rewrite filter_cons_b2n in Hhi.
  fold (Create_calls cs) in Hhi.
  destruct (exec_summary _ _ _ _ Hex Hbelow Hlo) as (_ & _ & _ & Hbelow1); [lia|].
  pose proof (exec_store _ _ _ _ Hex) as Hst.
  assert (nextID (store w1) = nextID (store w) + Z.of_nat (b2n (is_Create c)))
    as Hn.
  { destruct c; cbn in Hst |- *; try (rewrite Hst; lia);
      destruct Hst as [-> _]; try lia.
    rewrite int_add_no_overflow; cbn in Hhi; lia. }
  apply IH; [done|lia|lia].
Qed.

(** X8. Every ID in the map was handed out by a Create: for every
    sequence of Store calls on a new Store, each stored ID is among the
    IDs that Create returned in that sequence.  Update and Delete, with
    whatever ID they are called, never bring an entry into being. *)
Theorem stored_ids_were_issued (h0 : gmap loc value) (cs : list call) (id : Z) :
  is_Some (data (store (snd (run cs (W0 h0)))) !! id) →
  id ∈ issued_ids (fst (run cs (W0 h0))).
Proof.
  assert (∀ cs w id,
    is_Some (data (store (snd (run cs w))) !! id) →
    id ∈ issued_ids (fst (run cs w)) ∨ is_Some (data (store w) !! id)) as Hgen.
  { clear. induction cs as [|c cs IH]; intros w id Hid; [by right|].
    rewrite run_cons in Hid |- *. cbn [fst snd] in *.
    destruct (exec c w) as [res w1] eqn:Hex. cbn [fst snd] in *.
    unfold issued_ids. cbn [omap list_omap]. fold (issued_ids (fst (run cs w1))).
    destruct (IH _ _ Hid) as [Hin | Hw1].
    { left. destruct (issued _); [by right|done]. }
    pose proof (exec_store _ _ _ _ Hex) as Hst.
    destruct c as [item | ? ? | ? | id' v | id']; cbn in Hst.
    - destruct Hst as [_ [(-> & Hret & Hd) | (_ & Hd)]].
      + rewrite Hd, lookup_insert in Hw1. case_decide as Heq.
        * left. unfold issued. cbn. rewrite Hret. subst. left.
        * by right.
      + right. by rewrite <- Hd.
    - right. by rewrite <- Hst.
    - right. by rewrite <- Hst.
    - right. destruct Hst as [_ [(_ & Hs & Hd) | (_ & Hd)]]; rewrite Hd in Hw1;
        [|done]. rewrite lookup_insert in Hw1. case_decide; by subst.
    - right. destruct Hst as [_ [(_ & Hs & Hd) | (_ & Hd)]]; rewrite Hd in Hw1;
        [|done]. rewrite lookup_delete in Hw1. case_decide; [by destruct Hw1|done]. }
  intros Hid. destruct (Hgen _ _ _ Hid) as [?|[x Hx]]; [done|].
  cbn in Hx. by rewrite lookup_empty in Hx.
Qed.

Lemma absent_stays_absent id cs : ∀ w,
  data (store w) !! id = None →
  id < nextID (store w) →
  int_min ≤ nextID (store w) →
  nextID (store w) + Z.of_nat (Create_calls cs) ≤ int_max →
  data (store (snd (run cs w))) !! id = None.
Proof.
  induction cs as [|c cs IH]; intros w Hid Hlt Hlo Hhi; [done|].
  rewrite run_cons. cbn [snd].
  destruct (exec c w) as [res w1] eqn:Hex. cbn [fst snd].
  unfold Create_calls in Hhi. rewrite filter_cons_b2n in Hhi.
  fold (Create_calls cs) in Hhi.
  pose proof (exec_store _ _ _ _ Hex) as Hst.
  assert (data (store w1) !! id = None ∧
          nextID (store w1) = nextID (store w) + Z.of_nat (b2n (is_Create c)))
    as [Hid1 Hn1].
  { destruct c as [item | ? ? | ? | id' v | id']; cbn in Hst, Hhi |- *.
    - destruct Hst as [Hn Hcase]. rewrite Hn, int_add_no_overflow by lia.
      split; [|done]. destruct Hcase as [(_ & _ & ->) | (_ & ->)]; [|done].
      rewrite lookup_insert_ne; [done|lia].
    - rewrite Hst. split; [done|lia].
    - rewrite Hst. split; [done|lia].
    - destruct Hst as [-> [(_ & Hs & ->) | (_ & ->)]]; (split; [|lia]); [|done].
      rewrite lookup_insert_ne; [done|]. intros ->. rewrite Hid in Hs.
      by destruct Hs.
    - destruct Hst as [-> [(_ & Hs & ->) | (_ & ->)]]; (split; [|lia]); [|done].
      rewrite lookup_delete. by case_decide. }
  apply IH; [done|lia|lia|lia].
Qed.

(** X9. An ID that was deleted does not come back: for every sequence of
    Store calls on a new Store in which an ID is stored at some point and
    then deleted, the ID is not stored after any further calls, whatever
    they are; no later Create hands it out again and no Update revives it.
    As for C1 the sequence has fewer Create calls than the largest
    [int]. *)
Theorem deleted_id_does_not_come_back
    (h0 : gmap loc value) (cs1 cs2 : list call) (id : Z) :
  Z.of_nat (Create_calls (cs1 ++ cs2)) < int_max →
  is_Some (data (store (snd (run cs1 (W0 h0)))) !! id) →
  data (store (snd (run (cs1 ++ CallDelete id :: cs2) (W0 h0)))) !! id = None.
Proof.
  intros Hbound Hid. rewrite Create_calls_app in Hbound.
  rewrite run_app. cbn [snd]. rewrite run_cons. cbn [snd].
  destruct (run_issued cs1 (W0 h0)) as (Hn & _).
  { cbn. unfold int_min. lia. }
  { cbn. lia. }
  assert (ids_below_nextID (snd (run cs1 (W0 h0)))) as Hbelow.
  { apply run_ids_below.
    - intros i [x Hx]. cbn in Hx. by rewrite lookup_empty in Hx.
    - cbn. unfold int_min. lia.
    - cbn. lia. }
  cbn [W0 store nextID NewStore] in Hn.
  set (w1 := snd (run cs1 (W0 h0))) in *.
  cbn [exec]. rewrite bind_ret_eq, Delete_present by done. cbn [fst snd].
  apply absent_stays_absent; cbn [store data nextID].
  - apply lookup_delete_eq.
  - by apply Hbelow.
  - rewrite Hn. unfold int_min. lia.
  - rewrite Hn. lia.
Qed.

(** X23. The size of the map: for every sequence of Store calls on a new
    Store, the map holds as many entries as Creates have returned minus
    Deletes that returned true, and each entry is the value last written
    for its ID by a Create or an Update of the sequence.  Calls that
    panic, Updates and Deletes of IDs that are not stored, Gets and
    GetAlls do not count.  The sequence has fewer Create calls than the
    largest [int]. *)
Theorem map_size_is_Creates_minus_Deletes (h0 : gmap loc value) (cs : list call) :
  Z.of_nat (Create_calls cs) < int_max →
  (successful_Deletes (fst (run cs (W0 h0))) ≤
     successful_Creates (fst (run cs (W0 h0))))%nat ∧
  size (data (store (snd (run cs (W0 h0))))) =
    (successful_Creates (fst (run cs (W0 h0))) -
     successful_Deletes (fst (run cs (W0 h0))))%nat ∧
  (∀ id v, data (store (snd (run cs (W0 h0)))) !! id = Some v →
           last_written (fst (run cs (W0 h0))) id = Some v).
Proof.
  intros Hbound.
  destruct (run_data cs (W0 h0)) as [Hsz Hlw].
  { intros id [x Hx]. cbn in Hx. by rewrite lookup_empty in Hx. }
  { cbn. unfold int_min. lia. }
  { cbn. lia. }
  cbn [W0 store data NewStore] in Hsz, Hlw. rewrite map_size_empty in Hsz.
  split; [lia|]. split; [lia|].
  intros id v Hv. destruct (Hlw _ _ Hv) as [?|[_ Hx]]; [done|].
  by rewrite lookup_empty in Hx.
Qed.

(** * Further properties of the dispatcher *)

Lemma Atoi_Some_nonempty s id : Atoi s = Some id → s ≠ EmptyString.
Proof. by intros HA ->. Qed.

(** X10. Only a GET can make the dispatcher panic: every request with
    another method, whatever its query and body and whatever the Store
    holds, is answered, with one of the statuses 201, 200, 204, 400, 404
    and 405. *)
Theorem requests_other_than_GET_are_answered req w :
  Method req ≠ "GET" →
  ∃ w' rw' c,
    handleRequest req (w, NewResponseWriter) = (Ok tt, (w', rw')) ∧
    status rw' = Some c ∧
    (c = StatusCreated ∨ c = StatusOK ∨ c = StatusNoContent ∨
     c = StatusBadRequest ∨ c = StatusNotFound ∨ c = StatusMethodNotAllowed).
Proof.
  intros HnG.
  destruct (decide (Method req = "POST")) as [HM|HnP].
  { destruct (json_decode (Body req)) as [d|] eqn:Hd.
    - rewrite (handle_POST _ _ _ _ HM Hd). eexists _, _, _.
      split; [done|]. split; [reflexivity|]. auto.
    - rewrite (handle_POST_bad_body _ _ _ HM Hd). eexists _, _, _.
      split; [done|]. split; [reflexivity|]. auto. }
  destruct (decide (Method req = "PUT")) as [HM|HnU].
  { destruct (Atoi (Query_Get (Query req) "id")) as [id|] eqn:HA.
    - destruct (json_decode (Body req)) as [d|] eqn:Hd.
      + rewrite (handle_PUT _ _ _ _ _ HM HA Hd).
        destruct (data (store w) !! id); eexists _, _, _;
          (split; [done|]); (split; [reflexivity|]); auto 10.
      + rewrite (handle_PUT_bad_body _ _ _ _ HM HA Hd). eexists _, _, _.
        split; [done|]. split; [reflexivity|]. auto 10.
    - rewrite handle_bad_id by auto. eexists _, _, _.
      split; [done|]. split; [reflexivity|]. auto 10. }
  destruct (decide (Method req = "DELETE")) as [HM|HnD].
  { destruct (Atoi (Query_Get (Query req) "id")) as [id|] eqn:HA.
    - rewrite (handle_DELETE _ _ _ _ HM HA).
      destruct (data (store w) !! id); eexists _, _, _;
        (split; [done|]); (split; [reflexivity|]); auto 10.
    - rewrite handle_bad_id by auto. eexists _, _, _.
      split; [done|]. split; [reflexivity|]. auto 10. }
  rewrite handle_other by done. eexists _, _, _.
  split; [done|]. split; [reflexivity|]. auto 10.
Qed.

(** X11. A PUT on a stored ID with a body that decodes replaces the entry
    by a pointer to the decoded record as submitted and echoes that record
    with status 200 as application/json: the ID field the client sent is
    kept even when it differs from the ID in the query, the record that
    was stored before is not written to, every other entry and [nextID]
    are unchanged. *)
Theorem PUT_stores_and_echoes_the_body req id d w :
  Method req = "PUT" →
  Atoi (Query_Get (Query req) "id") = Some id →
  json_decode (Body req) = Some d →
  is_Some (data (store w) !! id) →
  ∃ w' rw' l,
    handleRequest req (w, NewResponseWriter) = (Ok tt, (w', rw')) ∧
    status rw' = Some StatusOK ∧
    sent_header rw' "Content-Type" = Some "application/json" ∧
    body rw' = [JSON (JObject d)] ∧
    heap w !! l = None ∧
    data (store w') = <[id := VPtr TModel l]> (data (store w)) ∧
    heap w' = <[l := VStruct d]> (heap w) ∧
    nextID (store w') = nextID (store w).
Proof.
  intros HM HA Hd [x Hid]. rewrite (handle_PUT _ _ _ _ _ HM HA Hd), Hid.
  eexists _, _, _. split; [done|]. split; [reflexivity|]. split; [reflexivity|].
  split; [reflexivity|]. split; [apply fresh_loc_None|]. done.
Qed.

(** X12. A DELETE on a stored ID is answered 204 with no body and no
    Content-Type, and removes exactly that entry; the heap and [nextID]
    are unchanged. *)
Theorem DELETE_answers_204 req id w :
  Method req = "DELETE" →
  Atoi (Query_Get (Query req) "id") = Some id →
  is_Some (data (store w) !! id) →
  ∃ w' rw',
    handleRequest req (w, NewResponseWriter) = (Ok tt, (w', rw')) ∧
    status rw' = Some StatusNoContent ∧
    body rw' = [] ∧
    sent_header rw' "Content-Type" = None ∧
    data (store w') = delete id (data (store w)) ∧
    nextID (store w') = nextID (store w) ∧
    heap w' = heap w.
Proof.
  intros HM HA [x Hid]. rewrite (handle_DELETE _ _ _ _ HM HA), Hid.
  by eexists _, _.
Qed.

(** X13. A GET, a DELETE, or a PUT whose body decodes, with an id that
    parses but is not stored, is answered 404 with the text line
    [Item not found], sent as text/plain, and the Store is as before. *)
Theorem absent_id_answers_404 req id w :
  Method req = "GET" ∨ Method req = "DELETE" ∨
  (Method req = "PUT" ∧ is_Some (json_decode (Body req))) →
  Atoi (Query_Get (Query req) "id") = Some id →
  data (store w) !! id = None →
  ∃ w' rw',
    handleRequest req (w, NewResponseWriter) = (Ok tt, (w', rw')) ∧
    status rw' = Some StatusNotFound ∧
    body rw' = [Text "Item not found"] ∧
    sent_header rw' "Content-Type" = Some "text/plain; charset=utf-8" ∧
    store w' = store w.
Proof.
  intros HM HA Hid. pose proof (Atoi_Some_nonempty _ _ HA) as Hq.
  destruct HM as [HM | [HM | [HM [d Hd]]]].
  - rewrite (handle_GET_id _ _ _ _ HM Hq HA), Get_absent by done.
    by eexists _, _.
  - rewrite (handle_DELETE _ _ _ _ HM HA), Hid. by eexists _, _.
  - rewrite (handle_PUT _ _ _ _ _ HM HA Hd), Hid. by eexists _, _.
Qed.

(** X14. A PUT checks its body before it looks the ID up: with a body
    that does not decode it is answered 400 with the text line
    [Invalid request payload], whether or not the ID is stored, and no
    Store method is entered. *)
Theorem PUT_bad_body_answers_400_before_lookup req id w :
  Method req = "PUT" →
  Atoi (Query_Get (Query req) "id") = Some id →
  json_decode (Body req) = None →
  ∃ w' rw',
    handleRequest req (w, NewResponseWriter) = (Ok tt, (w', rw')) ∧
    status rw' = Some StatusBadRequest ∧
    body rw' = [Text "Invalid request payload"] ∧
    store w' = store w ∧
    calls w' = calls w.
Proof.
  intros HM HA Hd. rewrite (handle_PUT_bad_body _ _ _ _ HM HA Hd).
  by eexists _, _.
Qed.

(** X15. An id that does not parse as an [int] (letters, a fraction, a
    value beyond the range of [int], a lone sign; for PUT and DELETE also
    the empty string) makes GET, PUT and DELETE answer 400 with the text
    line [Invalid ID] before anything else happens: the body is not
    decoded, nothing is allocated, and no Store method is entered. *)
Theorem invalid_id_answers_400 req w :
  (Method req = "GET" ∧ Query_Get (Query req) "id" ≠ EmptyString) ∨
  Method req = "PUT" ∨ Method req = "DELETE" →
  Atoi (Query_Get (Query req) "id") = None →
  ∃ rw',
    handleRequest req (w, NewResponseWriter) = (Ok tt, (w, rw')) ∧
    status rw' = Some StatusBadRequest ∧
    body rw' = [Text "Invalid ID"] ∧
    sent_header rw' "Content-Type" = Some "text/plain; charset=utf-8".
Proof.
  intros HM HA. rewrite handle_bad_id by tauto. by eexists.
Qed.

(** X16. Every method other than POST, GET, PUT and DELETE (the
    comparison is exact, so a lower-case method name included) is
    answered 405 with the text line [Unsupported method]; the query and
    the body are not looked at and the world is untouched. *)
Theorem other_methods_answer_405 req w :
  Method req ≠ "POST" → Method req ≠ "GET" →
  Method req ≠ "PUT" → Method req ≠ "DELETE" →
  ∃ rw',
    handleRequest req (w, NewResponseWriter) = (Ok tt, (w, rw')) ∧
    status rw' = Some StatusMethodNotAllowed ∧
    body rw' = [Text "Unsupported method"].
Proof. intros. rewrite handle_other by done. by eexists. Qed.

(** X17. A GET whose first [id] parameter is present but empty is served
    like a GET without the parameter: the dispatcher enters GetAll, and
    further [id] parameters are ignored. *)
Theorem GET_with_empty_id_lists req q w :
  Method req = "GET" →
  Query req = ("id", EmptyString) :: q →
  calls (fst (snd (handleRequest req (w, NewResponseWriter)))) =
    calls w ++ [MGetAll] ∧
  store (fst (snd (handleRequest req (w, NewResponseWriter)))) = store w.
Proof.
  intros HM HQ.
  assert (Query_Get (Query req) "id" = EmptyString) as Hq by by rewrite HQ.
  rewrite (handle_GET_all _ _ _ HM Hq).
  pose proof (GetAll_calls (VPtr (TSlice TModel) (fresh (dom (heap w))))
                (allocated (VSlice TModel None) w)) as HC.
  pose proof (keeps_store_GetAll (VPtr (TSlice TModel) (fresh (dom (heap w))))
                (allocated (VSlice TModel None) w)) as HS.
  destruct (GetAll _ _) as [[[]|msg] w2]; cbn [snd] in HC, HS; [|done].
  by destruct (Encode_cases (VPtr (TSlice TModel) (fresh (dom (heap w)))) w2
                 (Header_Set "Content-Type" "application/json" NewResponseWriter))
    as [-> | [j ->]].
Qed.

(** X18. A POST whose body does not decode is answered 400 with the text
    line [Invalid request payload]; no Store method is entered, so no ID
    is used up. *)
Theorem POST_bad_body_uses_no_ID req w :
  Method req = "POST" →
  json_decode (Body req) = None →
  ∃ w' rw',
    handleRequest req (w, NewResponseWriter) = (Ok tt, (w', rw')) ∧
    status rw' = Some StatusBadRequest ∧
    body rw' = [Text "Invalid request payload"] ∧
    store w' = store w ∧
    calls w' = calls w.
Proof.
  intros HM Hd. rewrite (handle_POST_bad_body _ _ _ HM Hd). by eexists _, _.
Qed.

(** * The registered handler over a sequence of requests *)

Lemma serve_cons req reqs w :
  serve (req :: reqs) w =
    (fst (serve_one req w) :: fst (serve reqs (snd (serve_one req w))),
     snd (serve reqs (snd (serve_one req w)))).
Proof.
  cbn [serve]. destruct (serve_one req w) as [resp w1]. cbn.
  by destruct (serve reqs w1).
Qed.

Lemma created_id_not_201 (res : result unit) rw :
  status rw ≠ Some StatusCreated → created_id (res, rw) = None.
Proof.
  unfold created_id, StatusCreated. cbn [snd].
  destruct (status rw) as [c|]; [|done]. intros Hc.
  destruct (decide (c = 201)) as [->|Hne]; [done|].
  destruct c as [|p|p]; try done.
  repeat (destruct p as [p|p|]; try done).
Qed.

(** One request: a POST whose body decodes is answered with the current
    [nextID] and moves the counter; any other request shows no created id
    and leaves the counter alone. *)
Lemma serve_one_counter req w :
  if creates req
  then created_id (fst (serve_one req w)) = Some (nextID (store w)) ∧
       nextID (store (snd (serve_one req w))) = int_add (nextID (store w)) 1
  else created_id (fst (serve_one req w)) = None ∧
       nextID (store (snd (serve_one req w))) = nextID (store w).
Proof.
  unfold serve_one, creates.
  destruct (decide (Method req = "POST")) as [HM|HnP].
  { rewrite HM. cbn [String.eqb Ascii.eqb Bool.eqb andb].
    destruct (json_decode (Body req)) as [d|] eqn:Hd.
    - rewrite (handle_POST _ _ _ _ HM Hd). done.
    - rewrite (handle_POST_bad_body _ _ _ HM Hd). done. }
  apply String.eqb_neq in HnP as HnP'. rewrite HnP'. cbn [andb].
  destruct (decide (Method req = "GET")) as [HM|HnG].
  { destruct (decide (Query_Get (Query req) "id" = EmptyString)) as [Hq|Hq].
    - rewrite (handle_GET_all _ _ _ HM Hq).
      pose proof (keeps_store_GetAll (VPtr (TSlice TModel) (fresh (dom (heap w))))
                    (allocated (VSlice TModel None) w)) as HS.
      destruct (GetAll _ _) as [[[]|msg] w2]; cbn [snd allocated store] in HS;
        [|cbn [fst snd]; by rewrite HS].
      destruct (Encode_cases (VPtr (TSlice TModel) (fresh (dom (heap w)))) w2
                  (Header_Set "Content-Type" "application/json" NewResponseWriter))
        as [-> | [j ->]]; cbn [fst snd]; by rewrite HS.
    - destruct (Atoi (Query_Get (Query req) "id")) as [id|] eqn:HA.
      + rewrite (handle_GET_id _ _ _ _ HM Hq HA).
        pose proof (keeps_store_Get id (VPtr TModel (fresh (dom (heap w))))
                      (allocated (VStruct zero_model) w)) as HS.
        destruct (Get _ _ _) as [[[|]|msg] w2]; cbn [snd allocated store] in HS;
          [| cbn [fst snd]; by rewrite HS | cbn [fst snd]; by rewrite HS].
        destruct (Encode_cases (VPtr TModel (fresh (dom (heap w)))) w2
                    (Header_Set "Content-Type" "application/json" NewResponseWriter))
          as [-> | [j ->]]; cbn [fst snd]; by rewrite HS.
      + by rewrite handle_bad_id by auto. }
  destruct (decide (Method req = "PUT")) as [HM|HnU].
  { destruct (Atoi (Query_Get (Query req) "id")) as [id|] eqn:HA.
    - destruct (json_decode (Body req)) as [d|] eqn:Hd.
      + rewrite (handle_PUT _ _ _ _ _ HM HA Hd).
        by destruct (data (store w) !! id).
      + by rewrite (handle_PUT_bad_body _ _ _ _ HM HA Hd).
    - by rewrite handle_bad_id by auto. }
  destruct (decide (Method req = "DELETE")) as [HM|HnD].
  { destruct (Atoi (Query_Get (Query req) "id")) as [id|] eqn:HA.
    - rewrite (handle_DELETE _ _ _ _ HM HA). by destruct (data (store w) !! id).
    - by rewrite handle_bad_id by auto. }
  by rewrite handle_other by done.
Qed.

Lemma serve_created_ids reqs : ∀ w,
  int_min ≤ nextID (store w) →
  nextID (store w) + Z.of_nat (length (filter creates reqs)) ≤ int_max →
  omap created_id (fst (serve reqs w)) =
    seqZ (nextID (store w)) (Z.of_nat (length (filter creates reqs))) ∧
  nextID (store (snd (serve reqs w))) =
    nextID (store w) + Z.of_nat (length (filter creates reqs)).
Proof.
  induction reqs as [|req reqs IH]; intros w Hlo Hhi.
  - cbn. split; [done|lia].
  - rewrite serve_cons. cbn [fst snd omap list_omap].
    rewrite filter_cons_b2n in Hhi |- *.
    pose proof (serve_one_counter req w) as Hone.
    destruct (creates req); cbn [b2n] in *; destruct Hone as [Hid Hn].
    + rewrite int_add_no_overflow in Hn by lia.
      destruct (IH (snd (serve_one req w))) as [IHids IHn]; [lia|lia|].
      rewrite Hid, IHids, IHn, Hn. split; [|lia].
      rewrite (seqZ_cons (nextID (store w))) by lia.
      f_equal. f_equal; lia.
    + destruct (IH (snd (serve_one req w))) as [IHids IHn]; [lia|lia|].
      rewrite Hid, IHids, IHn, Hn. split; [|lia]. f_equal; lia.
Qed.

(** X19. Served from a new Store, the POSTs whose bodies decode are
    answered with the ids 1, 2, 3, ... in the order they arrive, whatever
    other requests come in between (GETs that panic, PUTs, DELETEs, POSTs
    with a bad body, unsupported methods): only such a POST moves the
    counter.  The number of those POSTs is below the largest [int]. *)
Theorem POST_ids_are_consecutive (h0 : gmap loc value) (reqs : list Request) :
  Z.of_nat (length (filter creates reqs)) < int_max →
  omap created_id (fst (serve reqs (W0 h0))) =
    seqZ 1 (Z.of_nat (length (filter creates reqs))) ∧
  nextID (store (snd (serve reqs (W0 h0)))) =
    1 + Z.of_nat (length (filter creates reqs)).
Proof.
  intros Hbound. apply (serve_created_ids reqs (W0 h0)); cbn.
  - unfold int_min. lia.
  - lia.
Qed.

(** X20. A POST followed by a DELETE of the id it was answered with: the
    answers are 201 and 204, and the map is what it was before the POST
    (the record stays on the heap, unreferenced); [nextID] has moved on,
    so the id is not handed out again. *)
Theorem POST_then_DELETE_restores_the_map post del d w :
  Method post = "POST" →
  json_decode (Body post) = Some d →
  Method del = "DELETE" →
  Atoi (Query_Get (Query del) "id") = Some (nextID (store w)) →
  data (store w) !! nextID (store w) = None →
  map (λ resp, status (snd resp)) (fst (serve [post; del] w)) =
    [Some StatusCreated; Some StatusNoContent] ∧
  data (store (snd (serve [post; del] w))) = data (store w) ∧
  nextID (store (snd (serve [post; del] w))) = int_add (nextID (store w)) 1.
Proof.
  intros HMp Hd HMd HA Hfresh.
  eassert (serve_one post w = _) as Hp.
  { unfold serve_one. rewrite (handle_POST _ _ _ _ HMp Hd). reflexivity. }
  rewrite !serve_cons, !Hp. cbn [fst snd].
  match goal with
  | |- context [serve_one del ?w1] => eassert (serve_one del w1 = _) as Hdel
  end.
  { unfold serve_one. rewrite (handle_DELETE _ _ _ _ HMd HA).
    cbn [store data nextID]. rewrite lookup_insert_eq. reflexivity. }
  rewrite !Hdel. cbn [fst snd serve map store data nextID].
  split; [reflexivity|]. split; [by apply delete_insert_id|done].
Qed.

(** X24. The README's walk-through, for every record: a POST whose body
    decodes is answered 201, and the GET of the id it was answered with
    panics inside Get before anything is written; the client gets no
    response to it, and the Store is as the POST left it. *)
Theorem GET_after_POST_panics post get d w :
  Method post = "POST" →
  json_decode (Body post) = Some d →
  Method get = "GET" →
  Atoi (Query_Get (Query get) "id") = Some (nextID (store w)) →
  ∃ rw1 msg,
    fst (serve [post; get] w) = [(Ok tt, rw1); (Panic msg, NewResponseWriter)] ∧
    status rw1 = Some StatusCreated ∧
    store (snd (serve [post; get] w)) = store (snd (serve [post] w)).
Proof.
  intros HMp Hd HMg HA.
  eassert (serve_one post w = _) as Hp.
  { unfold serve_one. rewrite (handle_POST _ _ _ _ HMp Hd). reflexivity. }
  rewrite !serve_cons, !Hp. cbn [fst snd serve].
  match goal with
  | |- context [serve_one get ?w1] => eassert (serve_one get w1 = _) as Hget
  end.
  { unfold serve_one.
    rewrite (handle_GET_id _ _ _ _ HMg (Atoi_Some_nonempty _ _ HA) HA).
    rewrite (Get_type_mismatch _ (VPtr TModel (fresh (dom (heap w))))
               (TPtr TModel) TModel).
    - reflexivity.
    - cbn. by rewrite lookup_insert_eq.
    - done.
    - cbn. rewrite lookup_insert_eq. by eexists.
    - done. }
  rewrite !Hget. cbn [fst snd]. by eexists _, _.
Qed.

End Properties.

(** * The model at work on [main.go]'s [Item] *)

(** The calls of [example_calls]: IDs 1 and 3 are handed out (the Create
    of a nil interface panics after taking ID 2), the Update stores a
    struct by value, the Get into a struct variable then succeeds, and
    GetAll into a slice of [interface{}] returns the one stored value. *)
Example example_calls_run :
  issued_ids (fst (run example_calls (W0 example_heap))) = [1; 3] ∧
  map (λ e, is_Panic (ev_result e)) (fst (run example_calls (W0 example_heap)))
    = [false; false; true; false; false; false; false] ∧
  heap (snd (run example_calls (W0 example_heap))) !! 3%positive
    = Some (VStruct (mkItem 9 "Ship it" true)) ∧
  heap (snd (run example_calls (W0 example_heap))) !! 6%positive
    = Some (VSlice TIface (Some [VStruct (mkItem 9 "Ship it" true)])).
Proof. vm_compute. repeat split; reflexivity. Qed.

(** The README's walk-through: POST, then GET by id, then GET all.  The
    POST is answered 201; both GETs panic in [reflect]. *)
Example README_POST_then_GET :
  let after_POST := handleRequest example_POST (W0 ∅, NewResponseWriter) in
  let w1 := fst (snd after_POST) in
  status (snd (snd after_POST)) = Some 201 ∧
  body (snd (snd after_POST)) = [JSON (JObject (mkItem 1 "Learn Go" true))] ∧
  is_Panic (fst (handleRequest example_GET_1 (w1, NewResponseWriter))) = true ∧
  is_Panic (fst (handleRequest example_GET_all (w1, NewResponseWriter))) = true.
Proof. vm_compute. repeat split; reflexivity. Qed.

(** [strconv.Atoi] on a few strings. *)
Example Atoi_examples :
  Atoi "12" = Some 12 ∧ Atoi "-7" = Some (-7) ∧ Atoi "+3" = Some 3 ∧
  Atoi EmptyString = None ∧ Atoi "-" = None ∧ Atoi "1x" = None ∧
  Atoi "9223372036854775807" = Some int_max ∧
  Atoi "9223372036854775808" = None.
Proof. vm_compute. repeat split; reflexivity. Qed.

(** * The theorems at concrete inputs *)

Lemma Create_IDs_strictly_increasing_witness :
  Z.of_nat (Create_calls example_calls) < int_max ∧
  StronglySorted Z.lt (issued_ids (fst (run example_calls (W0 example_heap)))) ∧
  NoDup (issued_ids (fst (run example_calls (W0 example_heap)))).
Proof.
  assert (Z.of_nat (Create_calls example_calls) < int_max) as Hb
    by (vm_compute; reflexivity).
  split; [exact Hb|].
  destruct (Create_IDs_strictly_increasing example_heap example_calls Hb)
    as (_ & _ & _ & Hs & Hn & _).
  exact (conj Hs Hn).
Defined.

Lemma Create_then_Get_into_struct_panics_witness :
  example_heap !! 1%positive = Some (VStruct (mkItem 0 "Learn Go" false)) ∧
  is_Some (example_heap !! 3%positive) ∧
  ∃ w1 msg w2,
    Create (VPtr TModel 1%positive) (W0 example_heap)
      = (Ok (VPtr TModel 1%positive), w1) ∧
    Get 1 (VPtr TModel 3%positive) w1 = (Panic msg, w2).
Proof.
  assert (example_heap !! 1%positive = Some (VStruct (mkItem 0 "Learn Go" false)))
    as H1 by (vm_compute; reflexivity).
  assert (is_Some (example_heap !! 3%positive)) as H3
    by (vm_compute; eexists; reflexivity).
  split; [exact H1|]. split; [exact H3|].
  destruct (Create_then_Get_into_struct_panics (W0 example_heap)
              1%positive 3%positive _ H1 H3)
    as (w1 & msg & w2 & HC & _ & _ & HG & _).
  exists w1, msg, w2. exact (conj HC HG).
Defined.

Lemma Update_then_Get_into_struct_panics_witness :
  is_Some (data (store example_world) !! 1) ∧
  is_Some (heap example_world !! 3%positive) ∧
  ∃ w1 msg w2,
    Update 1 (VPtr TModel 2%positive) example_world = (Ok true, w1) ∧
    Get 1 (VPtr TModel 3%positive) w1 = (Panic msg, w2).
Proof.
  assert (is_Some (data (store example_world) !! 1)) as H1
    by (vm_compute; eexists; reflexivity).
  assert (is_Some (heap example_world !! 3%positive)) as H3
    by (vm_compute; eexists; reflexivity).
  split; [exact H1|]. split; [exact H3|].
  destruct (Update_then_Get_into_struct_panics example_world 1
              2%positive 3%positive H1 H3)
    as (w1 & msg & w2 & HU & _ & _ & _ & HG & _).
  exists w1, msg, w2. exact (conj HU HG).
Defined.

Lemma Delete_then_not_found_witness :
  Delete 1 example_world
    = (fst (Delete 1 example_world), snd (Delete 1 example_world)) ∧
  fst (Delete 1 example_world) = Ok true ∧
  ∃ w3,
    Delete 1 (snd (Delete 1 example_world)) = (Ok false, w3) ∧
    store w3 = store (snd (Delete 1 example_world)).
Proof.
  assert (Delete 1 example_world
            = (fst (Delete 1 example_world), snd (Delete 1 example_world))) as HD
    by (vm_compute; reflexivity).
  assert (fst (Delete 1 example_world) = Ok true) as Ht
    by (vm_compute; reflexivity).
  split; [exact HD|]. split; [exact Ht|].
  destruct (Delete_then_not_found example_world 1 _ _ HD) as [_ Hafter].
  destruct (Hafter Ht) as (_ & _ & Hsecond).
  exact Hsecond.
Defined.

Lemma GetAll_into_struct_slice_panics_witness :
  example_heap !! 1%positive = Some (VStruct (mkItem 0 "Learn Go" false)) ∧
  example_heap !! 5%positive = Some (VSlice TModel None) ∧
  ∃ msg w',
    GetAll (VPtr (TSlice TModel) 5%positive)
           (snd (run [CallCreate (VPtr TModel 1%positive)] (W0 example_heap)))
      = (Panic msg, w').
Proof.
  assert (example_heap !! 1%positive = Some (VStruct (mkItem 0 "Learn Go" false)))
    as H1 by (vm_compute; reflexivity).
  assert (example_heap !! 5%positive = Some (VSlice TModel None))
    as H5 by (vm_compute; reflexivity).
  assert (run [CallCreate (VPtr TModel 1%positive)] (W0 example_heap)
          = (fst (run [CallCreate (VPtr TModel 1%positive)] (W0 example_heap)),
             snd (run [CallCreate (VPtr TModel 1%positive)] (W0 example_heap))))
    as Hrun by (vm_compute; reflexivity).
  split; [exact H1|]. split; [exact H5|].
  destruct (GetAll_into_struct_slice_panics example_heap 1%positive 5%positive
              _ _ _ _ H1 H5 Hrun)
    as (_ & _ & _ & msg & w' & HG & _).
  exists msg, w'. exact HG.
Defined.

Lemma GET_without_id_does_not_list_witness :
  Method example_GET_all = "GET" ∧
  Query_Get (Query example_GET_all) "id" = EmptyString ∧
  (∃ w' rw',
     handleRequest example_GET_all (W0 ∅, NewResponseWriter) = (Ok tt, (w', rw')) ∧
     body rw' = [JSON JNull]) ∧
  (∃ msg w',
     handleRequest example_GET_all (example_world, NewResponseWriter)
       = (Panic msg, (w', NewResponseWriter))).
Proof.
  assert (Method example_GET_all = "GET") as HM by reflexivity.
  assert (Query_Get (Query example_GET_all) "id" = EmptyString) as Hq
    by reflexivity.
  split; [exact HM|]. split; [exact Hq|]. split.
  - destruct (GET_without_id_does_not_list example_GET_all (W0 ∅) HM Hq)
      as [Hempty _].
    destruct (Hempty eq_refl) as (w' & rw' & Hrun & _ & _ & _ & Hbody).
    exists w', rw'. exact (conj Hrun Hbody).
  - destruct (GET_without_id_does_not_list example_GET_all example_world HM Hq)
      as [_ Hfull].
    assert (data (store example_world) ≠ ∅) as Hne.
    { intros Hd. apply (f_equal (λ m, m !! 1)) in Hd. vm_compute in Hd.
      discriminate Hd. }
    assert (∀ id v, data (store example_world) !! id = Some v →
                    ∃ l, v = VPtr TModel l) as Hptr.
    { intros id v. change (data (store example_world))
        with (<[1 := VPtr TModel 1%positive]> (∅ : gmap Z (@value ItemFields))).
      rewrite insert_empty. intros [_ <-]%lookup_singleton_Some. by eexists. }
    destruct (Hfull Hne Hptr) as (msg & w' & Hrun & _).
    exists msg, w'. exact Hrun.
Defined.

Lemma POST_response_has_no_Content_Type_witness :
  Method example_POST = "POST" ∧
  json_decode (Body example_POST) = Some (mkItem 42 "Learn Go" true) ∧
  ∃ w' rw',
    handleRequest example_POST (W0 ∅, NewResponseWriter) = (Ok tt, (w', rw')) ∧
    status rw' = Some StatusCreated ∧
    sent_header rw' "Content-Type" = None.
Proof.
  assert (Method example_POST = "POST") as HM by reflexivity.
  assert (json_decode (Body example_POST) = Some (mkItem 42 "Learn Go" true))
    as Hd by (vm_compute; reflexivity).
  split; [exact HM|]. split; [exact Hd|].
  destruct (POST_response_has_no_Content_Type example_POST _ (W0 ∅) HM Hd)
    as (w' & rw' & Hrun & Hst & _ & _ & Hct).
  exists w', rw'. exact (conj Hrun (conj Hst Hct)).
Defined.

Lemma error_responses_leave_Store_unchanged_witness :
  wroteHeader (@NewResponseWriter ItemFields) = None ∧
  status (snd (snd (handleRequest example_DELETE_5
                      (example_world, NewResponseWriter))))
    = Some StatusNotFound ∧
  store (fst (snd (handleRequest example_DELETE_5
                      (example_world, NewResponseWriter))))
    = store example_world.
Proof.
  assert (wroteHeader (@NewResponseWriter ItemFields) = None) as Hw
    by reflexivity.
  assert (handleRequest example_DELETE_5 (example_world, NewResponseWriter)
          = (fst (handleRequest example_DELETE_5 (example_world, NewResponseWriter)),
             (fst (snd (handleRequest example_DELETE_5
                          (example_world, NewResponseWriter))),
              snd (snd (handleRequest example_DELETE_5
                          (example_world, NewResponseWriter))))))
    as Hrun by (vm_compute; reflexivity).
  assert (status (snd (snd (handleRequest example_DELETE_5
                              (example_world, NewResponseWriter))))
          = Some StatusNotFound) as Hst by (vm_compute; reflexivity).
  split; [exact Hw|]. split; [exact Hst|].
  destruct (error_responses_leave_Store_unchanged _ _ _ _ _ _ Hw Hrun
              (or_intror (or_introl Hst))) as (_ & Hstore & _).
  exact Hstore.
Defined.

Lemma POST_ignores_supplied_id_witness :
  Method example_POST = "POST" ∧
  json_decode (Body example_POST) = Some (mkItem 42 "Learn Go" true) ∧
  ∃ w' rw',
    handleRequest example_POST (example_world, NewResponseWriter)
      = (Ok tt, (w', rw')) ∧
    body rw' = [JSON (JObject (mkItem 2 "Learn Go" true))].
Proof.
  assert (Method example_POST = "POST") as HM by reflexivity.
  assert (json_decode (Body example_POST) = Some (mkItem 42 "Learn Go" true))
    as Hd by (vm_compute; reflexivity).
  split; [exact HM|]. split; [exact Hd|].
  destruct (POST_ignores_supplied_id example_POST _ example_world HM Hd)
    as (w' & rw' & l & Hrun & _ & Hbody & _).
  exists w', rw'. exact (conj Hrun Hbody).
Defined.

Lemma PUT_DELETE_without_id_witness :
  absent "id" (Query example_PUT_no_id) ∧
  Method example_PUT_no_id = "PUT" ∧
  ∃ rw',
    handleRequest example_PUT_no_id (example_world, NewResponseWriter)
      = (Ok tt, (example_world, rw')) ∧
    status rw' = Some StatusBadRequest.
Proof.
  assert (absent "id" (Query example_PUT_no_id)) as Habs.
  { repeat constructor. cbn. discriminate. }
  assert (Method example_PUT_no_id = "PUT") as HM by reflexivity.
  split; [exact Habs|]. split; [exact HM|].
  destruct (PUT_DELETE_without_id example_PUT_no_id example_world Habs)
    as (_ & Hbad & _).
  destruct (Hbad (or_introl HM)) as (rw' & Hrun & Hst & _).
  exists rw'. exact (conj Hrun Hst).
Defined.

(** * The further properties at concrete inputs *)

Lemma Create_panic_uses_up_ID_witness :
  (∀ l, VStruct (mkItem 0 "Learn Go" false) = VPtr TModel l →
        ∀ r, heap (W0 example_heap) !! l ≠ Some (VStruct r)) ∧
  ∃ msg w',
    Create (VStruct (mkItem 0 "Learn Go" false)) (W0 example_heap) = (Panic msg, w') ∧
    nextID (store w') = 2.
Proof.
  assert (∀ l, VStruct (mkItem 0 "Learn Go" false) = VPtr TModel l →
               ∀ r, heap (W0 example_heap) !! l ≠ Some (VStruct r)) as Hbad
    by (intros l Heq; discriminate Heq).
  split; [exact Hbad|].
  destruct (Create_panic_uses_up_ID _ (W0 example_heap) Hbad)
    as (msg & w' & HC & Hn & _).
  exists msg, w'. exact (conj HC Hn).
Defined.

Lemma Create_twice_shares_the_record_witness :
  example_heap !! 1%positive = Some (VStruct (mkItem 0 "Learn Go" false)) ∧
  ∃ w1 w2,
    Create (VPtr TModel 1%positive) (W0 example_heap) = (Ok (VPtr TModel 1%positive), w1) ∧
    Create (VPtr TModel 1%positive) w1 = (Ok (VPtr TModel 1%positive), w2) ∧
    data (store w2) !! 1 = Some (VPtr TModel 1%positive) ∧
    heap w2 !! 1%positive = Some (VStruct (mkItem (nextID (store w1)) "Learn Go" false)).
Proof.
  assert (example_heap !! 1%positive = Some (VStruct (mkItem 0 "Learn Go" false)))
    as H1 by (vm_compute; reflexivity).
  split; [exact H1|].
  destruct (Create_twice_shares_the_record (W0 example_heap) 1%positive _ H1)
    as (w1 & w2 & HC1 & HC2 & Hd1 & _ & _ & Hh).
  exists w1, w2. exact (conj HC1 (conj HC2 (conj Hd1 Hh))).
Defined.

Lemma Create_wraps_at_int_max_witness :
  nextID (store example_world_at_int_max) = int_max ∧
  ∃ w1 w2,
    Create (VPtr TModel 1%positive) example_world_at_int_max
      = (Ok (VPtr TModel 1%positive), w1) ∧
    nextID (store w1) = int_min ∧
    Create (VPtr TModel 2%positive) w1 = (Ok (VPtr TModel 2%positive), w2) ∧
    returned_ID (heap w2) (VPtr TModel 2%positive) = Some int_min.
Proof.
  assert (nextID (store example_world_at_int_max) = int_max) as Hmax
    by reflexivity.
  assert (heap example_world_at_int_max !! 1%positive
          = Some (VStruct (mkItem 0 "Learn Go" false))) as H1
    by (vm_compute; reflexivity).
  assert (heap example_world_at_int_max !! 2%positive
          = Some (VStruct (mkItem 7 "Write tests" true))) as H2
    by (vm_compute; reflexivity).
  assert (1%positive ≠ 2%positive) as Hne by (intros Heq; discriminate Heq).
  split; [exact Hmax|].
  destruct (Create_wraps_at_int_max example_world_at_int_max
              1%positive 2%positive _ _ Hmax H1 H2 Hne)
    as (w1 & w2 & HC1 & _ & Hn & HC2 & Hid).
  exists w1, w2. exact (conj HC1 (conj Hn (conj HC2 Hid))).
Defined.


Lemma stored_ids_were_issued_witness :
  is_Some (data (store (snd (run example_calls (W0 example_heap)))) !! 3) ∧
  3 ∈ issued_ids (fst (run example_calls (W0 example_heap))).
Proof.
  assert (is_Some (data (store (snd (run example_calls (W0 example_heap)))) !! 3))
    as H3 by (vm_compute; eexists; reflexivity).
  split; [exact H3|].
  exact (stored_ids_were_issued example_heap example_calls 3 H3).
Defined.

Lemma deleted_id_does_not_come_back_witness :
  Z.of_nat (Create_calls (example_calls_before ++ example_calls_after)) < int_max ∧
  is_Some (data (store (snd (run example_calls_before (W0 example_heap)))) !! 1) ∧
  data (store (snd (run (example_calls_before ++ CallDelete 1 :: example_calls_after)
                        (W0 example_heap)))) !! 1 = None.
Proof.
  assert (Z.of_nat (Create_calls (example_calls_before ++ example_calls_after))
          < int_max) as Hb by (vm_compute; reflexivity).
  assert (is_Some (data (store (snd (run example_calls_before
                                         (W0 example_heap)))) !! 1)) as H1
    by (vm_compute; eexists; reflexivity).
  split; [exact Hb|]. split; [exact H1|].
  exact (deleted_id_does_not_come_back example_heap _ _ 1 Hb H1).
Defined.

Lemma Update_by_value_then_Get_round_trip_witness :
  is_Some (data (store example_world) !! 1) ∧
  is_Some (heap example_world !! 3%positive) ∧
  ∃ w1 w2,
    Update 1 (VStruct (mkItem 42 "Ship it" true)) example_world = (Ok true, w1) ∧
    Get 1 (VPtr TModel 3%positive) w1 = (Ok true, w2) ∧
    heap w2 !! 3%positive = Some (VStruct (mkItem 42 "Ship it" true)).
Proof.
  assert (is_Some (data (store example_world) !! 1)) as H1
    by (vm_compute; eexists; reflexivity).
  assert (is_Some (heap example_world !! 3%positive)) as H3
    by (vm_compute; eexists; reflexivity).
  split; [exact H1|]. split; [exact H3|].
  destruct (Update_by_value_then_Get_round_trip example_world 1
              (mkItem 42 "Ship it" true) 3%positive H1 H3)
    as (w1 & w2 & HU & HG & Hh & _).
  exists w1, w2. exact (conj HU (conj HG Hh)).
Defined.

Lemma Create_then_Get_delivers_the_same_pointer_witness :
  example_heap !! 1%positive = Some (VStruct (mkItem 0 "Learn Go" false)) ∧
  is_Some (example_heap !! 4%positive) ∧
  ∃ w1 w2,
    Create (VPtr TModel 1%positive) (W0 example_heap)
      = (Ok (VPtr TModel 1%positive), w1) ∧
    Get 1 (VPtr TIface 4%positive) w1 = (Ok true, w2) ∧
    heap w2 !! 4%positive = Some (VPtr TModel 1%positive).
Proof.
  assert (example_heap !! 1%positive = Some (VStruct (mkItem 0 "Learn Go" false)))
    as H1 by (vm_compute; reflexivity).
  assert (is_Some (example_heap !! 4%positive)) as H4
    by (vm_compute; eexists; reflexivity).
  assert (4%positive ≠ 1%positive) as Hne by (intros Heq; discriminate Heq).
  split; [exact H1|]. split; [exact H4|].
  destruct (Create_then_Get_delivers_the_same_pointer (W0 example_heap)
              1%positive 4%positive _ H1 H4 Hne)
    as (w1 & w2 & HC & HG & Hh & _).
  exists w1, w2. exact (conj HC (conj HG Hh)).
Defined.

Lemma map_size_is_Creates_minus_Deletes_witness :
  Z.of_nat (Create_calls example_calls) < int_max ∧
  size (data (store (snd (run example_calls (W0 example_heap))))) =
    (successful_Creates (fst (run example_calls (W0 example_heap))) -
     successful_Deletes (fst (run example_calls (W0 example_heap))))%nat.
Proof.
  assert (Z.of_nat (Create_calls example_calls) < int_max) as Hb
    by (vm_compute; reflexivity).
  split; [exact Hb|].
  destruct (map_size_is_Creates_minus_Deletes example_heap example_calls Hb)
    as (_ & Hsz & _).
  exact Hsz.
Defined.

Lemma requests_other_than_GET_are_answered_witness :
  Method example_PATCH ≠ "GET" ∧
  ∃ w' rw' c,
    handleRequest example_PATCH (example_world, NewResponseWriter)
      = (Ok tt, (w', rw')) ∧
    status rw' = Some c.
Proof.
  assert (Method example_PATCH ≠ "GET") as HM by (intros Heq; discriminate Heq).
  split; [exact HM|].
  destruct (requests_other_than_GET_are_answered example_PATCH example_world HM)
    as (w' & rw' & c & Hrun & Hst & _).
  exists w', rw', c. exact (conj Hrun Hst).
Defined.

Lemma PUT_stores_and_echoes_the_body_witness :
  Method example_PUT_1 = "PUT" ∧
  Atoi (Query_Get (Query example_PUT_1) "id") = Some 1 ∧
  json_decode (Body example_PUT_1) = Some (mkItem 42 "Learn Go" true) ∧
  is_Some (data (store example_world) !! 1) ∧
  ∃ w' rw',
    handleRequest example_PUT_1 (example_world, NewResponseWriter)
      = (Ok tt, (w', rw')) ∧
    body rw' = [JSON (JObject (mkItem 42 "Learn Go" true))].
Proof.
  assert (Method example_PUT_1 = "PUT") as HM by reflexivity.
  assert (Atoi (Query_Get (Query example_PUT_1) "id") = Some 1) as HA
    by (vm_compute; reflexivity).
  assert (json_decode (Body example_PUT_1) = Some (mkItem 42 "Learn Go" true))
    as Hd by (vm_compute; reflexivity).
  assert (is_Some (data (store example_world) !! 1)) as H1
    by (vm_compute; eexists; reflexivity).
  split; [exact HM|]. split; [exact HA|]. split; [exact Hd|]. split; [exact H1|].
  destruct (PUT_stores_and_echoes_the_body example_PUT_1 1 _ example_world
              HM HA Hd H1) as (w' & rw' & l & Hrun & _ & _ & Hbody & _).
  exists w', rw'. exact (conj Hrun Hbody).
Defined.

Lemma DELETE_answers_204_witness :
  Method example_DELETE_1 = "DELETE" ∧
  Atoi (Query_Get (Query example_DELETE_1) "id") = Some 1 ∧
  is_Some (data (store example_world) !! 1) ∧
  ∃ w' rw',
    handleRequest example_DELETE_1 (example_world, NewResponseWriter)
      = (Ok tt, (w', rw')) ∧
    status rw' = Some StatusNoContent.
Proof.
  assert (Method example_DELETE_1 = "DELETE") as HM by reflexivity.
  assert (Atoi (Query_Get (Query example_DELETE_1) "id") = Some 1) as HA
    by (vm_compute; reflexivity).
  assert (is_Some (data (store example_world) !! 1)) as H1
    by (vm_compute; eexists; reflexivity).
  split; [exact HM|]. split; [exact HA|]. split; [exact H1|].
  destruct (DELETE_answers_204 example_DELETE_1 1 example_world HM HA H1)
    as (w' & rw' & Hrun & Hst & _).
  exists w', rw'. exact (conj Hrun Hst).
Defined.

Lemma absent_id_answers_404_witness :
  Method example_DELETE_5 = "DELETE" ∧
  Atoi (Query_Get (Query example_DELETE_5) "id") = Some 5 ∧
  data (store example_world) !! 5 = None ∧
  ∃ w' rw',
    handleRequest example_DELETE_5 (example_world, NewResponseWriter)
      = (Ok tt, (w', rw')) ∧
    status rw' = Some StatusNotFound.
Proof.
  assert (Method example_DELETE_5 = "DELETE") as HM by reflexivity.
  assert (Atoi (Query_Get (Query example_DELETE_5) "id") = Some 5) as HA
    by (vm_compute; reflexivity).
  assert (data (store example_world) !! 5 = None) as H5
    by (vm_compute; reflexivity).
  split; [exact HM|]. split; [exact HA|]. split; [exact H5|].
  destruct (absent_id_answers_404 example_DELETE_5 5 example_world
              (or_intror (or_introl HM)) HA H5)
    as (w' & rw' & Hrun & Hst & _).
  exists w', rw'. exact (conj Hrun Hst).
Defined.

Lemma PUT_bad_body_answers_400_before_lookup_witness :
  Method example_PUT_9_bad_body = "PUT" ∧
  Atoi (Query_Get (Query example_PUT_9_bad_body) "id") = Some 9 ∧
  json_decode (Body example_PUT_9_bad_body) = @None Item ∧
  ∃ w' rw',
    handleRequest example_PUT_9_bad_body (example_world, NewResponseWriter)
      = (Ok tt, (w', rw')) ∧
    status rw' = Some StatusBadRequest ∧
    calls w' = calls example_world.
Proof.
  assert (Method example_PUT_9_bad_body = "PUT") as HM by reflexivity.
  assert (Atoi (Query_Get (Query example_PUT_9_bad_body) "id") = Some 9) as HA
    by (vm_compute; reflexivity).
  assert (json_decode (Body example_PUT_9_bad_body) = @None Item) as Hd
    by (vm_compute; reflexivity).
  split; [exact HM|]. split; [exact HA|]. split; [exact Hd|].
  destruct (PUT_bad_body_answers_400_before_lookup example_PUT_9_bad_body 9
              example_world HM HA Hd) as (w' & rw' & Hrun & Hst & _ & _ & Hc).
  exists w', rw'. exact (conj Hrun (conj Hst Hc)).
Defined.

Lemma invalid_id_answers_400_witness :
  Method example_DELETE_bad_id = "DELETE" ∧
  Atoi (Query_Get (Query example_DELETE_bad_id) "id") = None ∧
  ∃ rw',
    handleRequest example_DELETE_bad_id (example_world, NewResponseWriter)
      = (Ok tt, (example_world, rw')) ∧
    status rw' = Some StatusBadRequest.
Proof.
  assert (Method example_DELETE_bad_id = "DELETE") as HM by reflexivity.
  assert (Atoi (Query_Get (Query example_DELETE_bad_id) "id") = None) as HA
    by (vm_compute; reflexivity).
  split; [exact HM|]. split; [exact HA|].
  destruct (invalid_id_answers_400 example_DELETE_bad_id example_world
              (or_intror (or_intror HM)) HA) as (rw' & Hrun & Hst & _).
  exists rw'. exact (conj Hrun Hst).
Defined.

Lemma other_methods_answer_405_witness :
  Method example_PATCH ≠ "POST" ∧ Method example_PATCH ≠ "GET" ∧
  Method example_PATCH ≠ "PUT" ∧ Method example_PATCH ≠ "DELETE" ∧
  ∃ rw',
    handleRequest example_PATCH (example_world, NewResponseWriter)
      = (Ok tt, (example_world, rw')) ∧
    status rw' = Some StatusMethodNotAllowed.
Proof.
  assert (Method example_PATCH ≠ "POST") as H1 by (intros Heq; discriminate Heq).
  assert (Method example_PATCH ≠ "GET") as H2 by (intros Heq; discriminate Heq).
  assert (Method example_PATCH ≠ "PUT") as H3 by (intros Heq; discriminate Heq).
  assert (Method example_PATCH ≠ "DELETE") as H4 by (intros Heq; discriminate Heq).
  split; [exact H1|]. split; [exact H2|]. split; [exact H3|]. split; [exact H4|].
  destruct (other_methods_answer_405 example_PATCH example_world H1 H2 H3 H4)
    as (rw' & Hrun & Hst & _).
  exists rw'. exact (conj Hrun Hst).
Defined.

Lemma GET_with_empty_id_lists_witness :
  Method example_GET_empty_id = "GET" ∧
  Query example_GET_empty_id = ("id", EmptyString) :: [("id", "1")] ∧
  calls (fst (snd (handleRequest example_GET_empty_id
                     (W0 (∅ : gmap loc (@value ItemFields)), NewResponseWriter))))
    = [MGetAll].
Proof.
  assert (Method example_GET_empty_id = "GET") as HM by reflexivity.
  assert (Query example_GET_empty_id = ("id", EmptyString) :: [("id", "1")])
    as HQ by reflexivity.
  split; [exact HM|]. split; [exact HQ|].
  exact (proj1 (GET_with_empty_id_lists example_GET_empty_id _
                  (W0 (∅ : gmap loc (@value ItemFields))) HM HQ)).
Defined.

Lemma POST_bad_body_uses_no_ID_witness :
  Method example_POST_bad_body = "POST" ∧
  json_decode (Body example_POST_bad_body) = @None Item ∧
  ∃ w' rw',
    handleRequest example_POST_bad_body (example_world, NewResponseWriter)
      = (Ok tt, (w', rw')) ∧
    status rw' = Some StatusBadRequest ∧
    store w' = store example_world.
Proof.
  assert (Method example_POST_bad_body = "POST") as HM by reflexivity.
  assert (json_decode (Body example_POST_bad_body) = @None Item) as Hd
    by (vm_compute; reflexivity).
  split; [exact HM|]. split; [exact Hd|].
  destruct (POST_bad_body_uses_no_ID example_POST_bad_body example_world HM Hd)
    as (w' & rw' & Hrun & Hst & _ & Hs & _).
  exists w', rw'. exact (conj Hrun (conj Hst Hs)).
Defined.

Lemma POST_ids_are_consecutive_witness :
  Z.of_nat (length (filter creates example_requests)) < int_max ∧
  omap created_id (fst (serve example_requests (W0 ∅))) =
    seqZ 1 (Z.of_nat (length (filter creates example_requests))).
Proof.
  assert (Z.of_nat (length (filter creates example_requests)) < int_max) as Hb
    by (vm_compute; reflexivity).
  split; [exact Hb|].
  exact (proj1 (POST_ids_are_consecutive ∅ example_requests Hb)).
Defined.

Lemma POST_then_DELETE_restores_the_map_witness :
  Method example_POST = "POST" ∧
  json_decode (Body example_POST) = Some (mkItem 42 "Learn Go" true) ∧
  Method example_DELETE_1 = "DELETE" ∧
  Atoi (Query_Get (Query example_DELETE_1) "id")
    = Some (nextID (store (W0 (∅ : gmap loc (@value ItemFields))))) ∧
  data (store (W0 (∅ : gmap loc (@value ItemFields)))) !! 1 = None ∧
  data (store (snd (serve [example_POST; example_DELETE_1] (W0 ∅)))) = ∅.
Proof.
  assert (Method example_POST = "POST") as HMp by reflexivity.
  assert (json_decode (Body example_POST) = Some (mkItem 42 "Learn Go" true))
    as Hd by (vm_compute; reflexivity).
  assert (Method example_DELETE_1 = "DELETE") as HMd by reflexivity.
  assert (Atoi (Query_Get (Query example_DELETE_1) "id")
          = Some (nextID (store (W0 (∅ : gmap loc (@value ItemFields)))))) as HA
    by (vm_compute; reflexivity).
  assert (data (store (W0 (∅ : gmap loc (@value ItemFields)))) !! 1 = None)
    as Hf by (vm_compute; reflexivity).
  split; [exact HMp|]. split; [exact Hd|]. split; [exact HMd|].
  split; [exact HA|]. split; [exact Hf|].
  destruct (POST_then_DELETE_restores_the_map example_POST example_DELETE_1 _
              (W0 ∅) HMp Hd HMd HA Hf) as (_ & Hdata & _).
  exact Hdata.
Defined.

Lemma GET_after_POST_panics_witness :
  Method example_POST = "POST" ∧
  json_decode (Body example_POST) = Some (mkItem 42 "Learn Go" true) ∧
  Method example_GET_1 = "GET" ∧
  Atoi (Query_Get (Query example_GET_1) "id")
    = Some (nextID (store (W0 (∅ : gmap loc (@value ItemFields))))) ∧
  ∃ rw1 msg,
    fst (serve [example_POST; example_GET_1] (W0 ∅))
      = [(Ok tt, rw1); (Panic msg, NewResponseWriter)].
Proof.
  assert (Method example_POST = "POST") as HMp by reflexivity.
  assert (json_decode (Body example_POST) = Some (mkItem 42 "Learn Go" true))
    as Hd by (vm_compute; reflexivity).
  assert (Method example_GET_1 = "GET") as HMg by reflexivity.
  assert (Atoi (Query_Get (Query example_GET_1) "id")
          = Some (nextID (store (W0 (∅ : gmap loc (@value ItemFields)))))) as HA
    by (vm_compute; reflexivity).
  split; [exact HMp|]. split; [exact Hd|]. split; [exact HMg|]. split; [exact HA|].
  destruct (GET_after_POST_panics example_POST example_GET_1 _ (W0 ∅)
              HMp Hd HMg HA) as (rw1 & msg & Hrun & _).
  exists rw1, msg. exact Hrun.
Defined.
